(** * generate_ec2_credentials.py: a shallow embedding and its properties

    The script authenticates against Keystone, lists the EC2 credentials
    of the authenticated user, optionally asks the operator whether to
    mint a new pair, and prints an access/secret pair.

    The embedding follows the script function by function.  Console
    writes, prompts and HTTP requests are recorded in a trace; Python
    exceptions are an explicit outcome, so that [try]/[except] blocks
    and exceptions escaping [main] can both be talked about.

    A Python [str] is a Rocq string that holds the UTF-8 bytes of the
    text; [Text.characters] gives its characters.  [strip] removes the
    white-space characters of [str.isspace], those outside ASCII
    included; [repr_str] escapes the characters that are not
    printable, those outside ASCII included; [lower] maps the letters
    of ASCII. *)

From Stdlib Require Import ZArith List String Ascii Bool Lia DecimalString.
Import ListNotations.
Set Warnings "-register-all".
Local Open Scope string_scope.
Local Open Scope Z_scope.

(** ** Text *)

Module Text.

Definition nl : string := String (ascii_of_nat 10) EmptyString.

(** [s * n] for a string [s]. *)
Fixpoint times (s : string) (n : nat) : string :=
  match n with
  | O => ""
  | S n' => s ++ times s n'
  end.

(** [str(n)] for a Python [int]. *)
Definition str_of_Z (z : Z) : string := NilZero.string_of_int (Z.to_int z).

Definition lower_ascii (c : ascii) : ascii :=
  let n := nat_of_ascii c in
  if andb (Nat.leb 65 n) (Nat.leb n 90) then ascii_of_nat (n + 32) else c.

(** [str.lower] on the letters A-Z.  A letter outside ASCII is left as
    it is, where [str.lower] may give its small form.  The script only
    compares the result, after [strip], with ['y']: under [str.lower]
    no character but [Y] gives a [y], white space stays as it is and
    nothing else becomes white space, so the comparison comes out the
    same. *)
Fixpoint lower (s : string) : string :=
  match s with
  | EmptyString => EmptyString
  | String c s' => String (lower_ascii c) (lower s')
  end.

(** A byte 10xxxxxx, which continues a character in UTF-8. *)
Definition is_continuation (c : ascii) : bool :=
  let n := nat_of_ascii c in
  andb (Nat.leb 128 n) (Nat.leb n 191).

Definition continues (s : string) : bool :=
  match s with
  | EmptyString => false
  | String c _ => is_continuation c
  end.

(** The characters of a text, each as the bytes of its encoding: a byte
    together with the continuation bytes that follow it. *)
Fixpoint characters (s : string) : list string :=
  match s with
  | EmptyString => []
  | String c s' =>
      if continues s' then
        match characters s' with
        | ch :: rest => String c ch :: rest
        | [] => [String c EmptyString]
        end
      else String c EmptyString :: characters s'
  end.

(** The text of a list of characters. *)
Fixpoint text_of (l : list string) : string :=
  match l with
  | [] => ""
  | ch :: rest => ch ++ text_of rest
  end.

Fixpoint bytes (l : list nat) : string :=
  match l with
  | [] => ""
  | n :: rest => String (ascii_of_nat n) (bytes rest)
  end.

(** The characters for which [str.isspace] holds, which [str.strip]
    removes: U+0009..U+000D, U+001C..U+001F, U+0020, U+0085, U+00A0,
    U+1680, U+2000..U+200A, U+2028, U+2029, U+202F, U+205F and U+3000,
    in UTF-8. *)
Definition white_space : list string :=
  map bytes
      [[9]; [10]; [11]; [12]; [13]; [28]; [29]; [30]; [31]; [32];
       [194; 133]; [194; 160]; [225; 154; 128];
       [226; 128; 128]; [226; 128; 129]; [226; 128; 130]; [226; 128; 131];
       [226; 128; 132]; [226; 128; 133]; [226; 128; 134]; [226; 128; 135];
       [226; 128; 136]; [226; 128; 137]; [226; 128; 138];
       [226; 128; 168]; [226; 128; 169]; [226; 128; 175];
       [226; 129; 159]; [227; 128; 128]]%nat.

(** [ch.isspace()] for a character [ch]. *)
Definition is_space (ch : string) : bool := existsb (String.eqb ch) white_space.

(** Drops the white space at the head of a list of characters. *)
Fixpoint drop_spaces (l : list string) : list string :=
  match l with
  | [] => []
  | ch :: rest => if is_space ch then drop_spaces rest else l
  end.

(** Drops the white space at both ends. *)
Definition trim (l : list string) : list string :=
  rev (drop_spaces (rev (drop_spaces l))).

(** [str.strip] with no argument. *)
Definition strip (s : string) : string := text_of (trim (characters s)).

Fixpoint join (sep : string) (l : list string) : string :=
  match l with
  | [] => ""
  | [x] => x
  | x :: rest => x ++ sep ++ join sep rest
  end.

Fixpoint mem_ascii (c : ascii) (s : string) : bool :=
  match s with
  | EmptyString => false
  | String d s' => orb (Ascii.eqb c d) (mem_ascii c s')
  end.

Definition hex_digit (n : nat) : ascii :=
  if Nat.ltb n 10 then ascii_of_nat (48 + n) else ascii_of_nat (87 + n).

(** [n] in [k] hexadecimal digits. *)
Fixpoint hex (k : nat) (n : Z) : string :=
  match k with
  | O => ""
  | S k' => hex k' (n / 16) ++ String (hex_digit (Z.to_nat (n mod 16))) ""
  end.

Definition byte (c : ascii) : Z := Z.of_nat (nat_of_ascii c).

(** The bits that the first byte of a character gives to its code
    point. *)
Definition lead_bits (n : Z) : Z :=
  if n <? 128 then n
  else if n <? 224 then n - 192
  else if n <? 240 then n - 224
  else n - 240.

(** Six more bits from each continuation byte. *)
Fixpoint continued (acc : Z) (s : string) : Z :=
  match s with
  | EmptyString => acc
  | String c s' => continued (acc * 64 + (byte c - 128)) s'
  end.

(** The code point of a character. *)
Definition code_point (ch : string) : Z :=
  match ch with
  | EmptyString => 0
  | String c s' => continued (lead_bits (byte c)) s'
  end.

(** The code points from U+0080 on for which [str.isprintable] is
    false, as ranges with both ends included: the separators, the
    control and format characters, the surrogates, the private-use and
    the unassigned code points of Unicode 14.0, the character database
    of CPython 3.11. *)
Definition not_printable : list (Z * Z) :=
  [(128, 160); (173, 173); (888, 889); (896, 899); (907, 907); (909, 909);
   (930, 930); (1328, 1328); (1367, 1368); (1419, 1420); (1424, 1424);
   (1480, 1487); (1515, 1518); (1525, 1541); (1564, 1564); (1757, 1757);
   (1806, 1807); (1867, 1868); (1970, 1983); (2043, 2044); (2094, 2095);
   (2111, 2111); (2140, 2141); (2143, 2143); (2155, 2159); (2191, 2199);
   (2274, 2274); (2436, 2436); (2445, 2446); (2449, 2450); (2473, 2473);
   (2481, 2481); (2483, 2485); (2490, 2491); (2501, 2502); (2505, 2506);
   (2511, 2518); (2520, 2523); (2526, 2526); (2532, 2533); (2559, 2560);
   (2564, 2564); (2571, 2574); (2577, 2578); (2601, 2601); (2609, 2609);
   (2612, 2612); (2615, 2615); (2618, 2619); (2621, 2621); (2627, 2630);
   (2633, 2634); (2638, 2640); (2642, 2648); (2653, 2653); (2655, 2661);
   (2679, 2688); (2692, 2692); (2702, 2702); (2706, 2706); (2729, 2729);
   (2737, 2737); (2740, 2740); (2746, 2747); (2758, 2758); (2762, 2762);
   (2766, 2767); (2769, 2783); (2788, 2789); (2802, 2808); (2816, 2816);
   (2820, 2820); (2829, 2830); (2833, 2834); (2857, 2857); (2865, 2865);
   (2868, 2868); (2874, 2875); (2885, 2886); (2889, 2890); (2894, 2900);
   (2904, 2907); (2910, 2910); (2916, 2917); (2936, 2945); (2948, 2948);
   (2955, 2957); (2961, 2961); (2966, 2968); (2971, 2971); (2973, 2973);
   (2976, 2978); (2981, 2983); (2987, 2989); (3002, 3005); (3011, 3013);
   (3017, 3017); (3022, 3023); (3025, 3030); (3032, 3045); (3067, 3071);
   (3085, 3085); (3089, 3089); (3113, 3113); (3130, 3131); (3141, 3141);
   (3145, 3145); (3150, 3156); (3159, 3159); (3163, 3164); (3166, 3167);
   (3172, 3173); (3184, 3190); (3213, 3213); (3217, 3217); (3241, 3241);
   (3252, 3252); (3258, 3259); (3269, 3269); (3273, 3273); (3278, 3284);
   (3287, 3292); (3295, 3295); (3300, 3301); (3312, 3312); (3315, 3327);
   (3341, 3341); (3345, 3345); (3397, 3397); (3401, 3401); (3408, 3411);
   (3428, 3429); (3456, 3456); (3460, 3460); (3479, 3481); (3506, 3506);
   (3516, 3516); (3518, 3519); (3527, 3529); (3531, 3534); (3541, 3541);
   (3543, 3543); (3552, 3557); (3568, 3569); (3573, 3584); (3643, 3646);
   (3676, 3712); (3715, 3715); (3717, 3717); (3723, 3723); (3748, 3748);
   (3750, 3750); (3774, 3775); (3781, 3781); (3783, 3783); (3790, 3791);
   (3802, 3803); (3808, 3839); (3912, 3912); (3949, 3952); (3992, 3992);
   (4029, 4029); (4045, 4045); (4059, 4095); (4294, 4294); (4296, 4300);
   (4302, 4303); (4681, 4681); (4686, 4687); (4695, 4695); (4697, 4697);
   (4702, 4703); (4745, 4745); (4750, 4751); (4785, 4785); (4790, 4791);
   (4799, 4799); (4801, 4801); (4806, 4807); (4823, 4823); (4881, 4881);
   (4886, 4887); (4955, 4956); (4989, 4991); (5018, 5023); (5110, 5111);
   (5118, 5119); (5760, 5760); (5789, 5791); (5881, 5887); (5910, 5918);
   (5943, 5951); (5972, 5983); (5997, 5997); (6001, 6001); (6004, 6015);
   (6110, 6111); (6122, 6127); (6138, 6143); (6158, 6158); (6170, 6175);
   (6265, 6271); (6315, 6319); (6390, 6399); (6431, 6431); (6444, 6447);
   (6460, 6463); (6465, 6467); (6510, 6511); (6517, 6527); (6572, 6575);
   (6602, 6607); (6619, 6621); (6684, 6685); (6751, 6751); (6781, 6782);
   (6794, 6799); (6810, 6815); (6830, 6831); (6863, 6911); (6989, 6991);
   (7039, 7039); (7156, 7163); (7224, 7226); (7242, 7244); (7305, 7311);
   (7355, 7356); (7368, 7375); (7419, 7423); (7958, 7959); (7966, 7967);
   (8006, 8007); (8014, 8015); (8024, 8024); (8026, 8026); (8028, 8028);
   (8030, 8030); (8062, 8063); (8117, 8117); (8133, 8133); (8148, 8149);
   (8156, 8156); (8176, 8177); (8181, 8181); (8191, 8207); (8232, 8239);
   (8287, 8303); (8306, 8307); (8335, 8335); (8349, 8351); (8385, 8399);
   (8433, 8447); (8588, 8591); (9255, 9279); (9291, 9311); (11124, 11125);
   (11158, 11158); (11508, 11512); (11558, 11558); (11560, 11564);
   (11566, 11567); (11624, 11630); (11633, 11646); (11671, 11679);
   (11687, 11687); (11695, 11695); (11703, 11703); (11711, 11711);
   (11719, 11719); (11727, 11727); (11735, 11735); (11743, 11743);
   (11870, 11903); (11930, 11930); (12020, 12031); (12246, 12271);
   (12284, 12288); (12352, 12352); (12439, 12440); (12544, 12548);
   (12592, 12592); (12687, 12687); (12772, 12783); (12831, 12831);
   (42125, 42127); (42183, 42191); (42540, 42559); (42744, 42751);
   (42955, 42959); (42962, 42962); (42964, 42964); (42970, 42993);
   (43053, 43055); (43066, 43071); (43128, 43135); (43206, 43213);
   (43226, 43231); (43348, 43358); (43389, 43391); (43470, 43470);
   (43482, 43485); (43519, 43519); (43575, 43583); (43598, 43599);
   (43610, 43611); (43715, 43738); (43767, 43776); (43783, 43784);
   (43791, 43792); (43799, 43807); (43815, 43815); (43823, 43823);
   (43884, 43887); (44014, 44015); (44026, 44031); (55204, 55215);
   (55239, 55242); (55292, 63743); (64110, 64111); (64218, 64255);
   (64263, 64274); (64280, 64284); (64311, 64311); (64317, 64317);
   (64319, 64319); (64322, 64322); (64325, 64325); (64451, 64466);
   (64912, 64913); (64968, 64974); (64976, 65007); (65050, 65055);
   (65107, 65107); (65127, 65127); (65132, 65135); (65141, 65141);
   (65277, 65280); (65471, 65473); (65480, 65481); (65488, 65489);
   (65496, 65497); (65501, 65503); (65511, 65511); (65519, 65531);
   (65534, 65535); (65548, 65548); (65575, 65575); (65595, 65595);
   (65598, 65598); (65614, 65615); (65630, 65663); (65787, 65791);
   (65795, 65798); (65844, 65846); (65935, 65935); (65949, 65951);
   (65953, 65999); (66046, 66175); (66205, 66207); (66257, 66271);
   (66300, 66303); (66340, 66348); (66379, 66383); (66427, 66431);
   (66462, 66462); (66500, 66503); (66518, 66559); (66718, 66719);
   (66730, 66735); (66772, 66775); (66812, 66815); (66856, 66863);
   (66916, 66926); (66939, 66939); (66955, 66955); (66963, 66963);
   (66966, 66966); (66978, 66978); (66994, 66994); (67002, 67002);
   (67005, 67071); (67383, 67391); (67414, 67423); (67432, 67455);
   (67462, 67462); (67505, 67505); (67515, 67583); (67590, 67591);
   (67593, 67593); (67638, 67638); (67641, 67643); (67645, 67646);
   (67670, 67670); (67743, 67750); (67760, 67807); (67827, 67827);
   (67830, 67834); (67868, 67870); (67898, 67902); (67904, 67967);
   (68024, 68027); (68048, 68049); (68100, 68100); (68103, 68107);
   (68116, 68116); (68120, 68120); (68150, 68151); (68155, 68158);
   (68169, 68175); (68185, 68191); (68256, 68287); (68327, 68330);
   (68343, 68351); (68406, 68408); (68438, 68439); (68467, 68471);
   (68498, 68504); (68509, 68520); (68528, 68607); (68681, 68735);
   (68787, 68799); (68851, 68857); (68904, 68911); (68922, 69215);
   (69247, 69247); (69290, 69290); (69294, 69295); (69298, 69375);
   (69416, 69423); (69466, 69487); (69514, 69551); (69580, 69599);
   (69623, 69631); (69710, 69713); (69750, 69758); (69821, 69821);
   (69827, 69839); (69865, 69871); (69882, 69887); (69941, 69941);
   (69960, 69967); (70007, 70015); (70112, 70112); (70133, 70143);
   (70162, 70162); (70207, 70271); (70279, 70279); (70281, 70281);
   (70286, 70286); (70302, 70302); (70314, 70319); (70379, 70383);
   (70394, 70399); (70404, 70404); (70413, 70414); (70417, 70418);
   (70441, 70441); (70449, 70449); (70452, 70452); (70458, 70458);
   (70469, 70470); (70473, 70474); (70478, 70479); (70481, 70486);
   (70488, 70492); (70500, 70501); (70509, 70511); (70517, 70655);
   (70748, 70748); (70754, 70783); (70856, 70863); (70874, 71039);
   (71094, 71095); (71134, 71167); (71237, 71247); (71258, 71263);
   (71277, 71295); (71354, 71359); (71370, 71423); (71451, 71452);
   (71468, 71471); (71495, 71679); (71740, 71839); (71923, 71934);
   (71943, 71944); (71946, 71947); (71956, 71956); (71959, 71959);
   (71990, 71990); (71993, 71994); (72007, 72015); (72026, 72095);
   (72104, 72105); (72152, 72153); (72165, 72191); (72264, 72271);
   (72355, 72367); (72441, 72703); (72713, 72713); (72759, 72759);
   (72774, 72783); (72813, 72815); (72848, 72849); (72872, 72872);
   (72887, 72959); (72967, 72967); (72970, 72970); (73015, 73017);
   (73019, 73019); (73022, 73022); (73032, 73039); (73050, 73055);
   (73062, 73062); (73065, 73065); (73103, 73103); (73106, 73106);
   (73113, 73119); (73130, 73439); (73465, 73647); (73649, 73663);
   (73714, 73726); (74650, 74751); (74863, 74863); (74869, 74879);
   (75076, 77711); (77811, 77823); (78895, 82943); (83527, 92159);
   (92729, 92735); (92767, 92767); (92778, 92781); (92863, 92863);
   (92874, 92879); (92910, 92911); (92918, 92927); (92998, 93007);
   (93018, 93018); (93026, 93026); (93048, 93052); (93072, 93759);
   (93851, 93951); (94027, 94030); (94088, 94094); (94112, 94175);
   (94181, 94191); (94194, 94207); (100344, 100351); (101590, 101631);
   (101641, 110575); (110580, 110580); (110588, 110588); (110591, 110591);
   (110883, 110927); (110931, 110947); (110952, 110959); (111356, 113663);
   (113771, 113775); (113789, 113791); (113801, 113807); (113818, 113819);
   (113824, 118527); (118574, 118575); (118599, 118607); (118724, 118783);
   (119030, 119039); (119079, 119080); (119155, 119162); (119275, 119295);
   (119366, 119519); (119540, 119551); (119639, 119647); (119673, 119807);
   (119893, 119893); (119965, 119965); (119968, 119969); (119971, 119972);
   (119975, 119976); (119981, 119981); (119994, 119994); (119996, 119996);
   (120004, 120004); (120070, 120070); (120075, 120076); (120085, 120085);
   (120093, 120093); (120122, 120122); (120127, 120127); (120133, 120133);
   (120135, 120137); (120145, 120145); (120486, 120487); (120780, 120781);
   (121484, 121498); (121504, 121504); (121520, 122623); (122655, 122879);
   (122887, 122887); (122905, 122906); (122914, 122914); (122917, 122917);
   (122923, 123135); (123181, 123183); (123198, 123199); (123210, 123213);
   (123216, 123535); (123567, 123583); (123642, 123646); (123648, 124895);
   (124903, 124903); (124908, 124908); (124911, 124911); (124927, 124927);
   (125125, 125126); (125143, 125183); (125260, 125263); (125274, 125277);
   (125280, 126064); (126133, 126208); (126270, 126463); (126468, 126468);
   (126496, 126496); (126499, 126499); (126501, 126502); (126504, 126504);
   (126515, 126515); (126520, 126520); (126522, 126522); (126524, 126529);
   (126531, 126534); (126536, 126536); (126538, 126538); (126540, 126540);
   (126544, 126544); (126547, 126547); (126549, 126550); (126552, 126552);
   (126554, 126554); (126556, 126556); (126558, 126558); (126560, 126560);
   (126563, 126563); (126565, 126566); (126571, 126571); (126579, 126579);
   (126584, 126584); (126589, 126589); (126591, 126591); (126602, 126602);
   (126620, 126624); (126628, 126628); (126634, 126634); (126652, 126703);
   (126706, 126975); (127020, 127023); (127124, 127135); (127151, 127152);
   (127168, 127168); (127184, 127184); (127222, 127231); (127406, 127461);
   (127491, 127503); (127548, 127551); (127561, 127567); (127570, 127583);
   (127590, 127743); (128728, 128732); (128749, 128751); (128765, 128767);
   (128884, 128895); (128985, 128991); (129004, 129007); (129009, 129023);
   (129036, 129039); (129096, 129103); (129114, 129119); (129160, 129167);
   (129198, 129199); (129202, 129279); (129620, 129631); (129646, 129647);
   (129653, 129655); (129661, 129663); (129671, 129679); (129709, 129711);
   (129723, 129727); (129734, 129743); (129754, 129759); (129768, 129775);
   (129783, 129791); (129939, 129939); (129995, 130031); (130042, 131071);
   (173792, 173823); (177977, 177983); (178206, 178207); (183970, 183983);
   (191457, 194559); (195102, 196607); (201547, 917759); (918000, 1114111)].

Definition is_printable (n : Z) : bool :=
  negb (existsb (fun r : Z * Z => andb (fst r <=? n) (n <=? snd r)) not_printable).

(** One character of [repr(str)] with [q] the quote in use: the quote
    and the backslash behind a backslash, tab, line feed and carriage
    return by their letter, every other character that is not printable
    by its code point in two, four or eight hexadecimal digits. *)
Definition repr_char (q : ascii) (ch : string) : string :=
  let n := code_point ch in
  let bs := ascii_of_nat 92 in
  if orb (String.eqb ch (String q "")) (String.eqb ch (String bs ""))
  then String bs ch
  else if n =? 9 then String bs "t"
  else if n =? 10 then String bs "n"
  else if n =? 13 then String bs "r"
  else if orb (n <? 32) (n =? 127) then String bs ("x" ++ hex 2 n)
  else if n <? 127 then ch
  else if is_printable n then ch
  else if n <=? 255 then String bs ("x" ++ hex 2 n)
  else if n <=? 65535 then String bs ("u" ++ hex 4 n)
  else String bs ("U" ++ hex 8 n).

Definition repr_body (q : ascii) (s : string) : string :=
  text_of (map (repr_char q) (characters s)).

(** [repr(s)] for a [str]: single quotes, unless the text has a single
    quote and no double quote. *)
Definition repr_str (s : string) : string :=
  let sq := ascii_of_nat 39 in
  let dq := ascii_of_nat 34 in
  let q := if andb (mem_ascii sq s) (negb (mem_ascii dq s)) then dq else sq in
  String q (repr_body q s ++ String q EmptyString).

End Text.

(** ** Python values

    Every value the script handles after a [response.json()] call is a
    decoded JSON document.  An object keeps its items in order, as a
    [dict] does.  A [float] is carried with its printed form and with
    whether it is zero, the only two things the script can observe. *)

Module Py.
Import Text.

Inductive json : Type :=
| JNull
| JBool (b : bool)
| JInt (z : Z)
| JFloat (is_zero : bool) (shown : string)
| JStr (s : string)
| JArr (items : list json)
| JObj (items : list (string * json)).

Inductive exn : Type :=
| RequestException (msg : string)
| JSONDecodeError (msg : string)
| KeyError (key : json)
| IndexError (msg : string)
| TypeError (msg : string)
| AttributeError (msg : string).

Inductive res (A : Type) : Type :=
| Ok (a : A)
| Raise (e : exn).
Arguments Ok {A} a.
Arguments Raise {A} e.

Fixpoint repr (v : json) : string :=
  match v with
  | JNull => "None"
  | JBool true => "True"
  | JBool false => "False"
  | JInt z => str_of_Z z
  | JFloat _ shown => shown
  | JStr s => repr_str s
  | JArr l => "[" ++ join ", " (map repr l) ++ "]"
  | JObj kv =>
      "{" ++ join ", " (map (fun p : string * json =>
                             let (k, x) := p in repr_str k ++ ": " ++ repr x) kv)
          ++ "}"
  end.

(** [str(v)], which is what an f-string field [{v}] inserts. *)
Definition str (v : json) : string :=
  match v with
  | JStr s => s
  | _ => repr v
  end.

Definition str_exn (e : exn) : string :=
  match e with
  | RequestException m | JSONDecodeError m | IndexError m
  | TypeError m | AttributeError m => m
  | KeyError k => repr k
  end.

Definition type_name (v : json) : string :=
  match v with
  | JNull => "NoneType"
  | JBool _ => "bool"
  | JInt _ => "int"
  | JFloat _ _ => "float"
  | JStr _ => "str"
  | JArr _ => "list"
  | JObj _ => "dict"
  end.

(** Truth value of [v] in an [if] or under [not]. *)
Definition truthy (v : json) : bool :=
  match v with
  | JNull => false
  | JBool b => b
  | JInt z => negb (z =? 0)
  | JFloat is_zero _ => negb is_zero
  | JStr s => negb (String.eqb s "")
  | JArr l => match l with [] => false | _ => true end
  | JObj kv => match kv with [] => false | _ => true end
  end.

Fixpoint lookup (k : string) (kv : list (string * json)) : option json :=
  match kv with
  | [] => None
  | (k', x) :: rest => if String.eqb k k' then Some x else lookup k rest
  end.

Definition quoted (s : string) : string := "'" ++ s ++ "'".

(** [v[k]] for a [str] key. *)
Definition getitem (v : json) (k : string) : res json :=
  match v with
  | JObj kv =>
      match lookup k kv with
      | Some x => Ok x
      | None => Raise (KeyError (JStr k))
      end
  | JStr _ => Raise (TypeError "string indices must be integers, not 'str'")
  | JArr _ => Raise (TypeError "list indices must be integers or slices, not str")
  | _ => Raise (TypeError (quoted (type_name v) ++ " object is not subscriptable"))
  end.

(** [v.get(k, d)]; only a [dict] has the method. *)
Definition get_default (v : json) (k : string) (d : json) : res json :=
  match v with
  | JObj kv =>
      match lookup k kv with
      | Some x => Ok x
      | None => Ok d
      end
  | _ => Raise (AttributeError
                  (quoted (type_name v) ++ " object has no attribute 'get'"))
  end.

(** [v.get(k)] *)
Definition get (v : json) (k : string) : res json := get_default v k JNull.

(** [len(v)] *)
Definition len (v : json) : res Z :=
  match v with
  | JStr s => Ok (Z.of_nat (List.length (characters s)))
  | JArr l => Ok (Z.of_nat (List.length l))
  | JObj kv => Ok (Z.of_nat (List.length kv))
  | _ => Raise (TypeError ("object of type " ++ quoted (type_name v) ++ " has no len()"))
  end.

(** The values a [for] loop over [v] visits. *)
Definition iter (v : json) : res (list json) :=
  match v with
  | JStr s => Ok (map JStr (characters s))
  | JArr l => Ok l
  | JObj kv => Ok (map (fun p => JStr (fst p)) kv)
  | _ => Raise (TypeError (quoted (type_name v) ++ " object is not iterable"))
  end.

(** [v[0]] *)
Definition first (v : json) : res json :=
  match v with
  | JArr (x :: _) => Ok x
  | JArr [] => Raise (IndexError "list index out of range")
  | JStr s =>
      match characters s with
      | ch :: _ => Ok (JStr ch)
      | [] => Raise (IndexError "string index out of range")
      end
  | JObj _ => Raise (KeyError (JInt 0))
  | _ => Raise (TypeError (quoted (type_name v) ++ " object is not subscriptable"))
  end.

End Py.

(** ** Effects

    A computation yields the trace of what it did and either a value or
    the exception it raised.  What was done before an exception stays
    in the trace. *)

Module Eff.
Import Text Py.

Inductive method : Type := GET | POST.

Record request : Type := {
  req_method : method;
  req_url : string;
  req_headers : list (string * json);
  req_json : option json
}.

Inductive event : Type :=
| Print (line : string)       (* print(line) *)
| Getpass (prompt : string)   (* getpass.getpass(prompt): nothing typed is shown *)
| Input (prompt : string)     (* input(prompt) *)
| Call (rq : request).        (* requests.get / requests.post *)

Definition trace : Type := list event.

Definition M (A : Type) : Type := (trace * res A)%type.

Definition ret {A : Type} (a : A) : M A := ([], Ok a).

Definition bind {A B : Type} (m : M A) (f : A -> M B) : M B :=
  match m with
  | (t, Ok a) => let (t', r) := f a in (List.app t t', r)
  | (t, Raise e) => (t, Raise e)
  end.

(** [try: m / except Exception as e: h e] *)
Definition try_except {A : Type} (m : M A) (h : exn -> M A) : M A :=
  match m with
  | (t, Raise e) => let (t', r) := h e in (List.app t t', r)
  | done => done
  end.

Definition lift {A : Type} (r : res A) : M A := ([], r).

Definition print (line : string) : M unit := ([Print line], Ok tt).

Fixpoint for_each {A : Type} (l : list A) (body : A -> M unit) : M unit :=
  match l with
  | [] => ret tt
  | x :: rest => bind (body x) (fun _ => for_each rest body)
  end.

(** What the service does with one request: it answers, or the
    transport fails and [requests] raises. *)
Record response : Type := {
  status_code : Z;
  subject_token : option string;   (* response.headers.get('X-Subject-Token') *)
  text : string;                   (* response.text *)
  json_doc : string + json         (* response.json(): the decoding error or the document *)
}.

Inductive reply : Type :=
| NoReply (msg : string)
| Reply (r : response).

Definition call (rq : request) (rp : reply) : M response :=
  match rp with
  | Reply r => ([Call rq], Ok r)
  | NoReply msg => ([Call rq], Raise (RequestException msg))
  end.

Definition json_of (r : response) : M json :=
  match json_doc r with
  | inl msg => lift (Raise (JSONDecodeError msg))
  | inr doc => ret doc
  end.

(** The lines written by [print], in order. *)
Fixpoint printed (t : trace) : list string :=
  match t with
  | [] => []
  | Print line :: rest => line :: printed rest
  | _ :: rest => printed rest
  end.

(** All text the operator sees: printed lines end with a line feed,
    prompts do not; [getpass] writes a line feed once the password is
    read, since what was typed, the Enter key included, is not shown. *)
Fixpoint console (t : trace) : string :=
  match t with
  | [] => ""
  | Print line :: rest => line ++ nl ++ console rest
  | Getpass p :: rest => p ++ nl ++ console rest
  | Input p :: rest => p ++ console rest
  | Call _ :: rest => console rest
  end.

(** The requests made, in order. *)
Fixpoint calls (t : trace) : list request :=
  match t with
  | [] => []
  | Call rq :: rest => rq :: calls rest
  | _ :: rest => calls rest
  end.

(** The questions put to the operator with [input]. *)
Fixpoint questions (t : trace) : list string :=
  match t with
  | [] => []
  | Input p :: rest => p :: questions rest
  | _ :: rest => questions rest
  end.

(** Status of the process for [sys.exit(main())]: the integer [main]
    returns, or 1 when an exception leaves [main] and the interpreter
    ends with a traceback. *)
Definition exit_status (r : res Z) : Z :=
  match r with
  | Ok code => code
  | Raise _ => 1
  end.

End Eff.

Declare Scope py_scope.
Delimit Scope py_scope with py.
Notation "x <- m ;; k" := (Eff.bind m (fun x => k))
  (at level 61, m at next level, right associativity) : py_scope.
Notation "m ;; k" := (Eff.bind m (fun _ => k))
  (at level 61, right associativity) : py_scope.

(** ** The script *)

Module Script.
Import Text Py Eff.
Local Open Scope py_scope.

Definition OS_AUTH_URL : string := "https://api.pub1.infomaniak.cloud/identity/v3".
Definition OS_PROJECT_NAME : string := "PCP-7LNN6ZO".
Definition OS_PROJECT_DOMAIN_NAME : string := "default".
Definition OS_USERNAME : string := "PCU-7LNN6ZO".
Definition OS_USER_DOMAIN_NAME : string := "default".
Definition OS_PROJECT_ID : string := "b45e6f3c29a34aa6b99cea829122a734".
Definition OS_REGION_NAME : string := "dc3-a".

(** One run: what the operator types and how the service answers each
    of the three requests.  Both prompts get a line: the end of the
    input at a prompt is not part of a run. *)
Record world : Type := {
  password : string;
  answer : string;
  auth_reply : reply;
  list_reply : reply;
  create_reply : reply
}.

(** What [get_keystone_token] hands back: the bare [None] of line 57, or
    a pair ([None, None] on line 67, [token, user_id] on line 64). *)
Inductive token_result : Type :=
| BareNone
| Pair (token user_id : json).

Definition of_option (o : option string) : json :=
  match o with
  | Some s => JStr s
  | None => JNull
  end.

(** [a, b = v] *)
Definition unpack (v : token_result) : res (json * json) :=
  match v with
  | Pair a b => Ok (a, b)
  | BareNone => Raise (TypeError "cannot unpack non-iterable NoneType object")
  end.

Definition auth_data (password : string) : json :=
  JObj [("auth", JObj [
    ("identity", JObj [
       ("methods", JArr [JStr "password"]);
       ("password", JObj [
          ("user", JObj [
             ("name", JStr OS_USERNAME);
             ("domain", JObj [("name", JStr OS_USER_DOMAIN_NAME)]);
             ("password", JStr password)])])]);
    ("scope", JObj [
       ("project", JObj [
          ("id", JStr OS_PROJECT_ID);
          ("domain", JObj [("name", JStr OS_PROJECT_DOMAIN_NAME)])])])])].

Definition ec2_url (user_id : json) : string :=
  OS_AUTH_URL ++ "/users/" ++ str user_id ++ "/credentials/OS-EC2".

(** The request of lines 48-52. *)
Definition auth_request (password : string) : request :=
  {| req_method := POST;
     req_url := OS_AUTH_URL ++ "/auth/tokens";
     req_headers := [("Content-Type", JStr "application/json")];
     req_json := Some (auth_data password) |}.

(** The request of lines 90-93. *)
Definition list_request (token user_id : json) : request :=
  {| req_method := GET;
     req_url := ec2_url user_id;
     req_headers := [("X-Auth-Token", token)];
     req_json := None |}.

Definition ec2_data : json := JObj [("tenant_id", JStr OS_PROJECT_ID)].

(** The request of lines 111-118. *)
Definition create_request (token user_id : json) : request :=
  {| req_method := POST;
     req_url := ec2_url user_id;
     req_headers := [("X-Auth-Token", token);
                     ("Content-Type", JStr "application/json")];
     req_json := Some ec2_data |}.

(** The request of lines 72-78. *)
Definition token_request (token : json) : request :=
  {| req_method := GET;
     req_url := OS_AUTH_URL ++ "/auth/tokens";
     req_headers := [("X-Auth-Token", token); ("X-Subject-Token", token)];
     req_json := None |}.

(** Lines 69-85.  No line of the script calls the function, so the
    service's answer to its request is an argument, [rp]. *)
Definition get_user_id_from_token (rp : reply) (token : json) : M json :=
  returned <-
    try_except
      (response <- call (token_request token) rp;;
       if status_code response =? 200 then
         token_info <- json_of response;;
         tok <- lift (get_default token_info "token" (JObj []));;
         user <- lift (get_default tok "user" (JObj []));;
         user_id <- lift (get user "id");;
         ret (Some user_id)
       else ret None)
      (fun e =>
         print ("Error getting user ID: " ++ str_exn e);;
         ret None);;
  match returned with
  | Some user_id => ret user_id
  | None => ret JNull
  end.

Section Run.
Variable w : world.

Definition getpass (prompt : string) : M string :=
  ([Getpass prompt], Ok (password w)).

Definition input (prompt : string) : M string :=
  ([Input prompt], Ok (answer w)).

Definition get_keystone_token (password : string) : M token_result :=
  try_except
    (response <- call (auth_request password) (auth_reply w);;
     if negb (status_code response =? 201) then
       print ("Error authenticating: " ++ str_of_Z (status_code response));;
       print (text response);;
       ret BareNone
     else
       let token := of_option (subject_token response) in
       token_data <- json_of response;;
       tok <- lift (getitem token_data "token");;
       user <- lift (getitem tok "user");;
       user_id <- lift (getitem user "id");;
       ret (Pair token user_id))
    (fun e =>
       print ("Error during authentication: " ++ str_exn e);;
       ret (Pair JNull JNull)).

Definition list_ec2_credentials (token user_id : json) : M json :=
  returned <-
    try_except
      (response <- call (list_request token user_id) (list_reply w);;
       if status_code response =? 200 then
         doc <- json_of response;;
         creds <- lift (get_default doc "credentials" (JArr []));;
         ret (Some creds)
       else
         print ("Error listing credentials: " ++ str_of_Z (status_code response));;
         print (text response);;
         ret None)
      (fun e =>
         print ("Error listing credentials: " ++ str_exn e);;
         ret None);;
  match returned with
  | Some creds => ret creds
  | None => ret (JArr [])
  end.

Definition create_ec2_credentials (token user_id : json) : M json :=
  returned <-
    try_except
      (response <- call (create_request token user_id) (create_reply w);;
       if orb (status_code response =? 200) (status_code response =? 201) then
         doc <- json_of response;;
         credential <- lift (get doc "credential");;
         ret (Some credential)
       else
         print ("Error creating EC2 credentials: " ++ str_of_Z (status_code response));;
         print (text response);;
         ret None)
      (fun e =>
         print ("Error creating credentials: " ++ str_exn e);;
         ret None);;
  match returned with
  | Some credential => ret credential
  | None => ret JNull
  end.

(** Lines 156-169 of [main]: [Some code] when [main] returns there. *)
Definition offer_existing (existing : json) : M (option Z) :=
  if truthy existing then
    n <- lift (len existing);;
    print ("Found " ++ str_of_Z n ++ " existing EC2 credential(s):");;
    creds <- lift (iter existing);;
    for_each creds (fun cred =>
      access <- lift (get cred "access");;
      print ("  - Access Key: " ++ str access));;
    print "";;
    typed <- input "Create new credentials? (y/n): ";;
    let create_new := strip (lower typed) in
    if negb (String.eqb create_new "y") then
      print (nl ++ "Using existing credentials:");;
      (if truthy existing then
         cred <- lift (first existing);;
         access <- lift (get cred "access");;
         print ("Access Key ID: " ++ str access);;
         secret <- lift (get cred "secret");;
         print ("Secret Access Key: " ++ str secret);;
         print (nl ++ "Add these to ~/.aws/credentials under [infomaniak] profile")
       else ret tt);;
      ret (Some 0)
    else ret None
  else ret None.

(** Lines 171-188 of [main]. *)
Definition create_new_credentials (token user_id : json) : M Z :=
  print "Creating new EC2 credentials...";;
  credential <- create_ec2_credentials token user_id;;
  if truthy credential then
    print (nl ++ "✓ EC2 credentials created successfully!");;
    print (times "=" 50);;
    print (nl ++ "Add these to your AWS CLI credentials file:");;
    access <- lift (get credential "access");;
    print (nl ++ "Access Key ID: " ++ str access);;
    secret <- lift (get credential "secret");;
    print ("Secret Access Key: " ++ str secret);;
    print (nl ++ "These can be used as S3 credentials for Infomaniak Object Storage.");;
    print (nl ++ "To update ~/.aws/credentials, run:");;
    access' <- lift (get credential "access");;
    print ("  aws configure set aws_access_key_id " ++ str access'
             ++ " --profile infomaniak");;
    secret' <- lift (get credential "secret");;
    print ("  aws configure set aws_secret_access_key " ++ str secret'
             ++ " --profile infomaniak");;
    ret 0
  else
    print "Failed to create EC2 credentials.";;
    ret 1.

(** Lines 148-188 of [main]. *)
Definition after_authentication (token user_id : json) : M Z :=
  print "✓ Authentication successful!";;
  print ("User ID: " ++ str user_id);;
  print "";;
  print "Checking existing EC2 credentials...";;
  existing <- list_ec2_credentials token user_id;;
  decided <- offer_existing existing;;
  match decided with
  | Some code => ret code
  | None => create_new_credentials token user_id
  end.

Definition main : M Z :=
  print "Infomaniak OpenStack EC2 Credentials Generator";;
  print (times "=" 50);;
  print ("Project: " ++ OS_PROJECT_NAME);;
  print ("Region: " ++ OS_REGION_NAME);;
  print ("Username: " ++ OS_USERNAME);;
  print "";;
  password <- getpass "Enter your OpenStack password: ";;
  print (nl ++ "Authenticating...");;
  result <- get_keystone_token password;;
  pair <- lift (unpack result);;
  let (token, user_id) := pair in
  if orb (negb (truthy token)) (negb (truthy user_id)) then
    print "Failed to authenticate. Please check your password.";;
    ret 1
  else after_authentication token user_id.

End Run.

(** The run of the script in a world: its trace and how [main] ended. *)
Definition run (w : world) : M Z := main w.

End Script.

(** ** Vocabulary of the properties *)

Module Spec.
Import Text Py Eff Script.

(** [token_data['token']['user']['id']] of lines 61-62, from the reply. *)
Definition user_id_of (r : response) : res json :=
  match json_doc r with
  | inl msg => Raise (JSONDecodeError msg)
  | inr doc =>
      match getitem doc "token" with
      | Ok tok =>
          match getitem tok "user" with
          | Ok user => getitem user "id"
          | Raise e => Raise e
          end
      | Raise e => Raise e
      end
  end.


(** What [main] shows before the authentication request. *)
Definition opening : trace :=
  [Print "Infomaniak OpenStack EC2 Credentials Generator";
   Print (times "=" 50);
   Print ("Project: " ++ OS_PROJECT_NAME);
   Print ("Region: " ++ OS_REGION_NAME);
   Print ("Username: " ++ OS_USERNAME);
   Print "";
   Getpass "Enter your OpenStack password: ";
   Print (nl ++ "Authenticating...")].

(** What [main] shows between authentication and listing. *)
Definition welcome (user_id : json) : trace :=
  [Print "✓ Authentication successful!";
   Print ("User ID: " ++ str user_id);
   Print "";
   Print "Checking existing EC2 credentials..."].

Definition failed_to_authenticate : string :=
  "Failed to authenticate. Please check your password.".

Definition failed_to_create : string := "Failed to create EC2 credentials.".

Definition question : string := "Create new credentials? (y/n): ".

(** The service accepts the password: status 201, the header
    [X-Subject-Token] with value [token], and [user_id] under
    [token.user.id] of the body. *)
Definition authenticated (w : world) (token : string) (user_id : json) : Prop :=
  exists r, auth_reply w = Reply r /\ status_code r = 201 /\
            subject_token r = Some token /\ user_id_of r = Ok user_id.

(** The run got as far as the request that creates a credential. *)
Definition creation_attempted (w : world) : Prop :=
  exists token user_id, In (create_request token user_id) (calls (fst (run w))).

(** A credential record is a JSON object. *)
Definition is_record (v : json) : Prop :=
  match v with
  | JObj _ => True
  | _ => False
  end.

(** [record.get(k)] for a record. *)
Definition field (record : json) (k : string) : json :=
  match record with
  | JObj kv =>
      match lookup k kv with
      | Some x => x
      | None => JNull
      end
  | _ => JNull
  end.

(** The operator's reply to the question is the explicit yes of line 162. *)
Definition affirmative (typed : string) : bool :=
  String.eqb (strip (lower typed)) "y".

(** [x] is a piece of the text [s]. *)
Definition occurs (x s : string) : Prop :=
  exists before after, s = before ++ x ++ after.

(** The same run with another password typed. *)
Definition with_password (w : world) (p : string) : world :=
  {| password := p;
     answer := answer w;
     auth_reply := auth_reply w;
     list_reply := list_reply w;
     create_reply := create_reply w |}.

(** A step of which the observer [obs] of traces sees nothing. *)
Definition silent {X A : Type} (obs : trace -> list X) (m : M A) : Prop :=
  obs (fst m) = [].

(** Lines 157-159, for the records found. *)
Definition found_report (creds : list json) : trace :=
  (Print ("Found " ++ str_of_Z (Z.of_nat (List.length creds))
            ++ " existing EC2 credential(s):")
   :: map (fun cred => Print ("  - Access Key: " ++ str (field cred "access"))) creds)%list.

(** Lines 163-168, for the record reused. *)
Definition reuse_report (cred : json) : trace :=
  [Print (nl ++ "Using existing credentials:");
   Print ("Access Key ID: " ++ str (field cred "access"));
   Print ("Secret Access Key: " ++ str (field cred "secret"));
   Print (nl ++ "Add these to ~/.aws/credentials under [infomaniak] profile")].

(** Lines 176-184, for the record created. *)
Definition created_report (credential : json) : trace :=
  [Print (nl ++ "✓ EC2 credentials created successfully!");
   Print (times "=" 50);
   Print (nl ++ "Add these to your AWS CLI credentials file:");
   Print (nl ++ "Access Key ID: " ++ str (field credential "access"));
   Print ("Secret Access Key: " ++ str (field credential "secret"));
   Print (nl ++ "These can be used as S3 credentials for Infomaniak Object Storage.");
   Print (nl ++ "To update ~/.aws/credentials, run:");
   Print ("  aws configure set aws_access_key_id " ++ str (field credential "access")
            ++ " --profile infomaniak");
   Print ("  aws configure set aws_secret_access_key " ++ str (field credential "secret")
            ++ " --profile infomaniak")].


(** The creation was refused: the transport failed or the status is
    neither 200 nor 201. *)
Definition creation_refused (rp : reply) : Prop :=
  match rp with
  | NoReply _ => True
  | Reply r => status_code r <> 200 /\ status_code r <> 201
  end.

(** The value under the key ['credential'] of the reply's body, if the
    body is an object that has the key. *)
Definition credential_of (r : response) : option json :=
  match json_doc r with
  | inr (JObj kv) => lookup "credential" kv
  | _ => None
  end.

(** The last line printed. *)
Definition last_line (t : trace) : string := last (printed t) "".

(** *** Sample runs *)

Definition dq : string := String (ascii_of_nat 34) EmptyString.

(** The body of scenario A: a token document for the user [u1]. *)
Definition scenario_A_doc : json :=
  JObj [("token", JObj [("user", JObj [("id", JStr "u1")])])].

Definition scenario_A_text : string :=
  "{" ++ dq ++ "token" ++ dq ++ ":{" ++ dq ++ "user" ++ dq ++ ":{"
      ++ dq ++ "id" ++ dq ++ ":" ++ dq ++ "u1" ++ dq ++ "}}}".

Definition accepted_response : response :=
  {| status_code := 201;
     subject_token := Some "gAAAAABtoken";
     text := scenario_A_text;
     json_doc := inr scenario_A_doc |}.

Definition accepted : reply := Reply accepted_response.

Definition record_AK1 : json := JObj [("access", JStr "AK1"); ("secret", JStr "SK1")].

Definition one_record : reply :=
  Reply {| status_code := 200;
           subject_token := None;
           text := "{" ++ dq ++ "credentials" ++ dq ++ ":[{" ++ dq ++ "access" ++ dq ++ ":"
                     ++ dq ++ "AK1" ++ dq ++ "," ++ dq ++ "secret" ++ dq ++ ":"
                     ++ dq ++ "SK1" ++ dq ++ "}]}";
           json_doc := inr (JObj [("credentials", JArr [record_AK1])]) |}.

Definition no_record : reply :=
  Reply {| status_code := 200;
           subject_token := None;
           text := "{" ++ dq ++ "credentials" ++ dq ++ ":[]}";
           json_doc := inr (JObj [("credentials", JArr [])]) |}.

Definition record_AK2 : json := JObj [("access", JStr "AK2"); ("secret", JStr "SK2")].

Definition created_response : response :=
  {| status_code := 201;
     subject_token := None;
     text := "{" ++ dq ++ "credential" ++ dq ++ ":{" ++ dq ++ "access" ++ dq ++ ":"
               ++ dq ++ "AK2" ++ dq ++ "," ++ dq ++ "secret" ++ dq ++ ":"
               ++ dq ++ "SK2" ++ dq ++ "}}";
     json_doc := inr (JObj [("credential", record_AK2)]) |}.

Definition created : reply := Reply created_response.

Definition forbidden_response : response :=
  {| status_code := 403;
     subject_token := None;
     text := "Forbidden";
     json_doc := inl "Expecting value: line 1 column 1 (char 0)" |}.

Definition forbidden : reply := Reply forbidden_response.

Definition unauthorized_response : response :=
  {| status_code := 401;
     subject_token := None;
     text := "Unauthorized";
     json_doc := inl "Expecting value: line 1 column 1 (char 0)" |}.

Definition empty_object_response : response :=
  {| status_code := 200;
     subject_token := None;
     text := "{}";
     json_doc := inr (JObj []) |}.

(** Scenario D: the service rejects the password with status 401. *)
Definition unauthorized : world :=
  {| password := "hunter2";
     answer := "";
     auth_reply := Reply unauthorized_response;
     list_reply := no_record;
     create_reply := created |}.

(** A 201 reply whose [X-Subject-Token] header is there and is empty. *)
Definition blank_token : world :=
  {| password := "hunter2";
     answer := "";
     auth_reply := Reply {| status_code := 201;
                            subject_token := Some "";
                            text := scenario_A_text;
                            json_doc := inr scenario_A_doc |};
     list_reply := no_record;
     create_reply := created |}.

(** The service cannot be reached at all. *)
Definition unreachable : world :=
  {| password := "hunter2";
     answer := "";
     auth_reply := NoReply "Connection refused";
     list_reply := NoReply "Connection refused";
     create_reply := NoReply "Connection refused" |}.

(** Scenario B: one record is listed and the operator types [n]. *)
Definition scenario_B : world :=
  {| password := "hunter2";
     answer := "n";
     auth_reply := accepted;
     list_reply := one_record;
     create_reply := created |}.

(** One record is listed and the operator types [Y] and a blank. *)
Definition wants_new : world :=
  {| password := "hunter2";
     answer := "Y ";
     auth_reply := accepted;
     list_reply := one_record;
     create_reply := created |}.

(** Scenario C: nothing is listed, the creation succeeds. *)
Definition scenario_C : world :=
  {| password := "hunter2";
     answer := "";
     auth_reply := accepted;
     list_reply := no_record;
     create_reply := created |}.


(** Nothing is listed and the creation is refused. *)
Definition creation_forbidden : world :=
  {| password := "hunter2";
     answer := "";
     auth_reply := accepted;
     list_reply := no_record;
     create_reply := forbidden |}.

(** Nothing is listed and the creation answers 200 with an empty object. *)
Definition creation_without_key : world :=
  {| password := "hunter2";
     answer := "";
     auth_reply := accepted;
     list_reply := no_record;
     create_reply := Reply empty_object_response |}.

(** [get_keystone_token] hands back a token that is not empty, with a
    subject id. *)
Definition returns_token (w : world) (p : string) : Prop :=
  exists t uid, t <> "" /\ snd (get_keystone_token w p) = Ok (Pair (JStr t) uid).

(** The service answers 201, the header [X-Subject-Token] is there, and
    the body has [token.user.id]. *)
Definition accepted_with_header (w : world) : Prop :=
  exists r, auth_reply w = Reply r /\ status_code r = 201 /\
            subject_token r <> None /\ exists uid, user_id_of r = Ok uid.

(** [r[k]] when [r] was read without an exception. *)
Definition and_then (r : res json) (k : string) : res json :=
  match r with
  | Ok v => getitem v k
  | Raise e => Raise e
  end.

(** [body['auth']['identity']['password']['user']['password']] *)
Definition password_field (body : json) : res json :=
  and_then (and_then (and_then (and_then (getitem body "auth") "identity")
                               "password") "user") "password".

(** The listing answers 200 with a number where the list should be. *)
Definition number_listed : world :=
  {| password := "hunter2";
     answer := "";
     auth_reply := accepted;
     list_reply := Reply {| status_code := 200;
                            subject_token := None;
                            text := "{" ++ dq ++ "credentials" ++ dq ++ ":5}";
                            json_doc := inr (JObj [("credentials", JInt 5)]) |};
     create_reply := created |}.

(** The creation answers 201 with a string where the record should be. *)
Definition string_created : world :=
  {| password := "hunter2";
     answer := "";
     auth_reply := accepted;
     list_reply := no_record;
     create_reply := Reply {| status_code := 201;
                              subject_token := None;
                              text := "{" ++ dq ++ "credential" ++ dq ++ ":"
                                        ++ dq ++ "abc" ++ dq ++ "}";
                              json_doc := inr (JObj [("credential", JStr "abc")]) |} |}.

(** [token_info.get('token', {}).get('user', {}).get('id')] of lines
    81-82, from the reply. *)
Definition get_path (r : response) : res json :=
  match json_doc r with
  | inl msg => Raise (JSONDecodeError msg)
  | inr doc =>
      match get_default doc "token" (JObj []) with
      | Ok tok =>
          match get_default tok "user" (JObj []) with
          | Ok user => get user "id"
          | Raise e => Raise e
          end
      | Raise e => Raise e
      end
  end.

(** A 200 reply to the token lookup, with the body of scenario A. *)
Definition token_info_response : response :=
  {| status_code := 200;
     subject_token := None;
     text := scenario_A_text;
     json_doc := inr scenario_A_doc |}.

(** A 200 reply whose body is not JSON. *)
Definition undecodable_response : response :=
  {| status_code := 200;
     subject_token := None;
     text := "<html>";
     json_doc := inl "Expecting value: line 1 column 1 (char 0)" |}.

(** The listing answers 200 with an empty object. *)
Definition creation_lists_nothing : world :=
  {| password := "hunter2";
     answer := "";
     auth_reply := accepted;
     list_reply := Reply empty_object_response;
     create_reply := created |}.

(** The trace [t] ends with the events [suffix]. *)
Definition ends_with (t suffix : trace) : Prop :=
  exists before, t = (before ++ suffix)%list.



(** The reply U+00A0 and [y]: a no-break space before the letter. *)
Definition no_break_space_y : string := bytes [194; 160; 121]%nat.

(** Every character of the list is white space. *)
Definition all_space (l : list string) : bool := forallb is_space l.

(** The creation answers 201 with an empty object as the credential. *)
Definition empty_credential_response : response :=
  {| status_code := 201;
     subject_token := None;
     text := "{" ++ dq ++ "credential" ++ dq ++ ":{}}";
     json_doc := inr (JObj [("credential", JObj [])]) |}.

Definition empty_credential_created : world :=
  {| password := "hunter2";
     answer := "";
     auth_reply := accepted;
     list_reply := no_record;
     create_reply := Reply empty_credential_response |}.

(** A record that has an access key and no secret. *)
Definition record_without_secret : json := JObj [("access", JStr "AK3")].

(** One record without a secret is listed and the operator declines. *)
Definition secret_missing : world :=
  {| password := "hunter2";
     answer := "n";
     auth_reply := accepted;
     list_reply := Reply {| status_code := 200;
                            subject_token := None;
                            text := "{" ++ dq ++ "credentials" ++ dq ++ ":[{" ++ dq
                                      ++ "access" ++ dq ++ ":" ++ dq ++ "AK3" ++ dq ++ "}]}";
                            json_doc :=
                              inr (JObj [("credentials", JArr [record_without_secret])]) |};
     create_reply := created |}.

(** A 200 reply to the creation with a record that has no secret. *)
Definition secretless_response : response :=
  {| status_code := 200;
     subject_token := None;
     text := "{" ++ dq ++ "credential" ++ dq ++ ":{" ++ dq
               ++ "access" ++ dq ++ ":" ++ dq ++ "AK3" ++ dq ++ "}}";
     json_doc := inr (JObj [("credential", record_without_secret)]) |}.

(** Nothing is listed and the record created has no secret. *)
Definition secret_not_created : world :=
  {| password := "hunter2";
     answer := "";
     auth_reply := accepted;
     list_reply := no_record;
     create_reply := Reply secretless_response |}.

(** The same run with another answer to the listing. *)
Definition with_list_reply (w : world) (rp : reply) : world :=
  {| password := password w;
     answer := answer w;
     auth_reply := auth_reply w;
     list_reply := rp;
     create_reply := create_reply w |}.

(** The access keys of the records [records], in order. *)
Definition access_keys (records : list json) : list json :=
  map (fun record => field record "access") records.

(** A 200 listing of the records [records]. *)
Definition lists_records (rp : reply) (records : list json) : Prop :=
  exists r kv, rp = Reply r /\ status_code r = 200 /\
               json_doc r = inr (JObj kv) /\
               lookup "credentials" kv = Some (JArr records) /\
               Forall is_record records.

Definition record_AK4 : json := JObj [("access", JStr "AK4"); ("secret", JStr "SK4")].

Definition record_AK4_other_secret : json :=
  JObj [("access", JStr "AK4"); ("secret", JStr "another")].

Definition two_records_response (second : json) : response :=
  {| status_code := 200;
     subject_token := None;
     text := "(two records)";
     json_doc := inr (JObj [("credentials", JArr [record_AK1; second])]) |}.

(** A 201 reply with a good body and no [X-Subject-Token] header. *)
Definition headerless_response : response :=
  {| status_code := 201;
     subject_token := None;
     text := scenario_A_text;
     json_doc := inr scenario_A_doc |}.

Definition headerless : world :=
  {| password := "hunter2";
     answer := "";
     auth_reply := Reply headerless_response;
     list_reply := no_record;
     create_reply := created |}.

(** A 201 reply whose body is an empty object. *)
Definition bodyless_response : response :=
  {| status_code := 201;
     subject_token := Some "gAAAAABtoken";
     text := "{}";
     json_doc := inr (JObj []) |}.

Definition bodyless : world :=
  {| password := "hunter2";
     answer := "";
     auth_reply := Reply bodyless_response;
     list_reply := no_record;
     create_reply := created |}.

(** A byte that is no letter of ASCII. *)
Definition no_letter (c : ascii) : bool :=
  let n := nat_of_ascii c in
  negb (orb (andb (Nat.leb 65 n) (Nat.leb n 90)) (andb (Nat.leb 97 n) (Nat.leb n 122))).

(** A text without letters of ASCII. *)
Fixpoint letterless (s : string) : bool :=
  match s with
  | EmptyString => true
  | String c s' => andb (no_letter c) (letterless s')
  end.

(** One record is listed, the operator types a no-break space and [y],
    and the creation is refused. *)
Definition no_break_yes : world :=
  {| password := "hunter2";
     answer := no_break_space_y;
     auth_reply := accepted;
     list_reply := one_record;
     create_reply := forbidden |}.

End Spec.

(** ** Properties *)

Module Props.
Import Text Py Eff Script Spec.

(** *** Traces *)

Lemma printed_app (a b : trace) : printed (a ++ b)%list = (printed a ++ printed b)%list.
Proof.
  induction a as [|[line|p|p|rq] a IH]; simpl; [reflexivity| |assumption..].
  now rewrite IH.
Qed.

Lemma calls_app (a b : trace) : calls (a ++ b)%list = (calls a ++ calls b)%list.
Proof.
  induction a as [|[line|p|p|rq] a IH]; simpl; [reflexivity|assumption..|].
  now rewrite IH.
Qed.

Lemma questions_app (a b : trace) :
  questions (a ++ b)%list = (questions a ++ questions b)%list.
Proof.
  induction a as [|[line|p|p|rq] a IH]; simpl; [reflexivity|assumption..| |assumption].
  all: now rewrite IH.
Qed.

Lemma append_assoc (a b c : string) : (a ++ b) ++ c = a ++ (b ++ c).
Proof. induction a as [|x a IH]; simpl; [reflexivity | now rewrite IH]. Qed.

Lemma console_app (a b : trace) : console (a ++ b)%list = console a ++ console b.
Proof.
  induction a as [|[line|p|p|rq] a IH]; simpl; [reflexivity|..].
  all: rewrite IH; rewrite ?append_assoc; reflexivity.
Qed.

(** *** The monad *)

Lemma bind_ok {A B : Type} (m : M A) (f : A -> M B) (a : A) :
  snd m = Ok a -> bind m f = ((fst m ++ fst (f a))%list, snd (f a)).
Proof.
  destruct m as [t r]; simpl; intros ->. simpl. now destruct (f a).
Qed.


(** *** The three requests, case by case *)

Lemma get_keystone_token_eq (w : world) (p : string) :
  get_keystone_token w p =
  match auth_reply w with
  | NoReply msg =>
      ([Call (auth_request p); Print ("Error during authentication: " ++ msg)],
       Ok (Pair JNull JNull))
  | Reply r =>
      if status_code r =? 201 then
        match user_id_of r with
        | Ok uid => ([Call (auth_request p)], Ok (Pair (of_option (subject_token r)) uid))
        | Raise e =>
            ([Call (auth_request p); Print ("Error during authentication: " ++ str_exn e)],
             Ok (Pair JNull JNull))
        end
      else
        ([Call (auth_request p);
          Print ("Error authenticating: " ++ str_of_Z (status_code r));
          Print (text r)], Ok BareNone)
  end.
Proof.
  unfold get_keystone_token, user_id_of.
  destruct (auth_reply w) as [msg|r]; [reflexivity|].
  cbn [call bind try_except].
  destruct (status_code r =? 201); [|reflexivity].
  cbn [negb]. unfold json_of.
  destruct (json_doc r) as [msg|doc]; [reflexivity|].
  cbn.
  destruct (getitem doc "token") as [tok|e]; [|reflexivity]. cbn.
  destruct (getitem tok "user") as [user|e]; [|reflexivity]. cbn.
  destruct (getitem user "id") as [uid|e]; reflexivity.
Qed.

Lemma list_ec2_credentials_eq (w : world) (token uid : json) :
  list_ec2_credentials w token uid =
  match list_reply w with
  | NoReply msg =>
      ([Call (list_request token uid); Print ("Error listing credentials: " ++ msg)],
       Ok (JArr []))
  | Reply r =>
      if status_code r =? 200 then
        match json_doc r with
        | inl msg =>
            ([Call (list_request token uid); Print ("Error listing credentials: " ++ msg)],
             Ok (JArr []))
        | inr doc =>
            match get_default doc "credentials" (JArr []) with
            | Ok creds => ([Call (list_request token uid)], Ok creds)
            | Raise e =>
                ([Call (list_request token uid);
                  Print ("Error listing credentials: " ++ str_exn e)], Ok (JArr []))
            end
        end
      else
        ([Call (list_request token uid);
          Print ("Error listing credentials: " ++ str_of_Z (status_code r));
          Print (text r)], Ok (JArr []))
  end.
Proof.
  unfold list_ec2_credentials.
  destruct (list_reply w) as [msg|r]; [reflexivity|].
  cbn [call bind try_except].
  destruct (status_code r =? 200); [|reflexivity].
  unfold json_of.
  destruct (json_doc r) as [msg|doc]; [reflexivity|].
  cbn.
  destruct (get_default doc "credentials" (JArr [])) as [creds|e]; reflexivity.
Qed.

Lemma create_ec2_credentials_eq (w : world) (token uid : json) :
  create_ec2_credentials w token uid =
  match create_reply w with
  | NoReply msg =>
      ([Call (create_request token uid); Print ("Error creating credentials: " ++ msg)],
       Ok JNull)
  | Reply r =>
      if orb (status_code r =? 200) (status_code r =? 201) then
        match json_doc r with
        | inl msg =>
            ([Call (create_request token uid);
              Print ("Error creating credentials: " ++ msg)], Ok JNull)
        | inr doc =>
            match get doc "credential" with
            | Ok credential => ([Call (create_request token uid)], Ok credential)
            | Raise e =>
                ([Call (create_request token uid);
                  Print ("Error creating credentials: " ++ str_exn e)], Ok JNull)
            end
        end
      else
        ([Call (create_request token uid);
          Print ("Error creating EC2 credentials: " ++ str_of_Z (status_code r));
          Print (text r)], Ok JNull)
  end.
Proof.
  unfold create_ec2_credentials.
  destruct (create_reply w) as [msg|r]; [reflexivity|].
  cbn [call bind try_except].
  destruct (orb (status_code r =? 200) (status_code r =? 201)); [|reflexivity].
  unfold json_of.
  destruct (json_doc r) as [msg|doc]; [reflexivity|].
  cbn.
  destruct (get doc "credential") as [credential|e]; reflexivity.
Qed.

(** *** [main], block by block *)

Lemma main_eq (w : world) :
  run w =
  let a := get_keystone_token w (password w) in
  match snd a with
  | Ok BareNone =>
      ((opening ++ fst a)%list,
       Raise (TypeError "cannot unpack non-iterable NoneType object"))
  | Ok (Pair token user_id) =>
      if orb (negb (truthy token)) (negb (truthy user_id)) then
        ((opening ++ fst a ++ [Print failed_to_authenticate])%list, Ok 1)
      else
        ((opening ++ fst a ++ fst (after_authentication w token user_id))%list,
         snd (after_authentication w token user_id))
  | Raise e => ((opening ++ fst a)%list, Raise e)
  end.
Proof.
  unfold run, main. cbn [print getpass bind app lift].
  destruct (get_keystone_token w (password w)) as [ta [[|token user_id]|e]];
    cbn [fst snd unpack bind app lift]; try reflexivity.
  - now rewrite (app_nil_r ta).
  - destruct (orb (negb (truthy token)) (negb (truthy user_id))).
    + cbn. reflexivity.
    + destruct (after_authentication w token user_id) as [t r]. reflexivity.
Qed.

Lemma after_authentication_eq (w : world) (token user_id : json) :
  after_authentication w token user_id =
  let l := list_ec2_credentials w token user_id in
  match snd l with
  | Ok existing =>
      let o := offer_existing w existing in
      match snd o with
      | Ok (Some code) => ((welcome user_id ++ fst l ++ fst o)%list, Ok code)
      | Ok None =>
          ((welcome user_id ++ fst l ++ fst o
              ++ fst (create_new_credentials w token user_id))%list,
           snd (create_new_credentials w token user_id))
      | Raise e => ((welcome user_id ++ fst l ++ fst o)%list, Raise e)
      end
  | Raise e => ((welcome user_id ++ fst l)%list, Raise e)
  end.
Proof.
  unfold after_authentication. cbn [print bind app].
  destruct (list_ec2_credentials w token user_id) as [tl [existing|e]];
    cbn [fst snd bind app]; [|reflexivity].
  destruct (offer_existing w existing) as [to [[code|]|e]];
    cbn [fst snd bind app ret]; try reflexivity.
  - now rewrite (app_nil_r to).
  - destruct (create_new_credentials w token user_id) as [t r]. reflexivity.
Qed.

Lemma fst_bind {A B : Type} (m : M A) (f : A -> M B) :
  fst (bind m f) =
  (fst m ++ match snd m with Ok a => fst (f a) | Raise _ => [] end)%list.
Proof.
  destruct m as [t [a|e]]; simpl.
  - now destruct (f a).
  - now rewrite (app_nil_r t).
Qed.

(** *** Steps that an observer of the trace does not see *)

Section Silent.
Context {X : Type} (obs : trace -> list X).
Hypothesis obs_app : forall a b : trace, obs (a ++ b)%list = (obs a ++ obs b)%list.
Hypothesis obs_nil : obs [] = [].

Lemma silent_bind {A B : Type} (m : M A) (f : A -> M B) :
  silent obs m -> (forall a, silent obs (f a)) -> silent obs (bind m f).
Proof.
  unfold silent. intros Hm Hf. rewrite fst_bind, obs_app, Hm.
  destruct (snd m); [apply Hf | exact obs_nil].
Qed.

Lemma silent_for_each {A : Type} (l : list A) (body : A -> M unit) :
  (forall x, silent obs (body x)) -> silent obs (for_each l body).
Proof.
  intros Hb. induction l as [|x l IH]; [exact obs_nil|].
  cbn [for_each]. apply silent_bind; [apply Hb | intros _; exact IH].
Qed.

Lemma obs_bind_silent {A B : Type} (m : M A) (f : A -> M B) :
  (forall a, silent obs (f a)) -> obs (fst (bind m f)) = obs (fst m).
Proof.
  intros Hf. rewrite fst_bind, obs_app.
  destruct (snd m); [rewrite (Hf a) | rewrite obs_nil]; apply app_nil_r.
Qed.
End Silent.

Ltac distributes := first [exact calls_app | exact questions_app].

Ltac quiet :=
  repeat first
    [ reflexivity
    | eapply silent_bind; [distributes | reflexivity | | intro]
    | eapply silent_for_each; [distributes | reflexivity | intro]
    | match goal with |- silent _ (if ?c then _ else _) => destruct c end ].

Lemma offer_existing_calls (w : world) (existing : json) :
  calls (fst (offer_existing w existing)) = [].
Proof.
  change (silent calls (offer_existing w existing)).
  unfold offer_existing. quiet.
Qed.

(** On records the loop of lines 158-159 prints one line each. *)
Lemma listing_records (creds : list json) :
  Forall is_record creds ->
  for_each creds (fun cred =>
    bind (lift (get cred "access")) (fun access =>
      print ("  - Access Key: " ++ str access)))
  = (map (fun cred => Print ("  - Access Key: " ++ str (field cred "access"))) creds,
     Ok tt).
Proof.
  induction 1 as [|cred creds Hc _ IH]; [reflexivity|].
  cbn [for_each map]. rewrite IH.
  destruct cred; try contradiction. cbn.
  destruct (lookup "access" items); reflexivity.
Qed.

Lemma offer_existing_falsy (w : world) (existing : json) :
  truthy existing = false -> offer_existing w existing = ([], Ok None).
Proof. unfold offer_existing. now intros ->. Qed.

Lemma bind_done {A B : Type} (t : trace) (a : A) (f : A -> M B) :
  bind (t, Ok a) f = ((t ++ fst (f a))%list, snd (f a)).
Proof. simpl. now destruct (f a). Qed.

Lemma bind_lift_ok {A B : Type} (a : A) (f : A -> M B) : bind (lift (Ok a)) f = f a.
Proof. unfold lift. rewrite bind_done. now destruct (f a). Qed.

Lemma bind_print {B : Type} (line : string) (f : unit -> M B) :
  bind (print line) f = (Print line :: fst (f tt), snd (f tt)).
Proof. unfold print. now rewrite bind_done. Qed.

Lemma bind_input {B : Type} (w : world) (prompt : string) (f : string -> M B) :
  bind (input w prompt) f = (Input prompt :: fst (f (answer w)), snd (f (answer w))).
Proof. unfold input. now rewrite bind_done. Qed.

Lemma offer_existing_records (w : world) (cred : json) (more : list json) :
  Forall is_record (cred :: more) ->
  offer_existing w (JArr (cred :: more)) =
  ((found_report (cred :: more) ++ [Print ""; Input question]
      ++ (if affirmative (answer w) then [] else reuse_report cred))%list,
   Ok (if affirmative (answer w) then None else Some 0)).
Proof.
  intros Hr. unfold offer_existing, found_report, affirmative.
  cbn [truthy len iter first].
  rewrite bind_lift_ok, bind_print, bind_lift_ok, (listing_records _ Hr), bind_done,
    bind_print, bind_input.
  destruct (String.eqb (strip (lower (answer w))) "y"); cbn [negb].
  - reflexivity.
  - inversion Hr as [|? ? Hc _]; subst.
    destruct cred as [| | | | | |kv]; try contradiction.
    rewrite bind_print, bind_lift_ok.
    unfold get, get_default, reuse_report, field.
    destruct (lookup "access" kv), (lookup "secret" kv); reflexivity.
Qed.

(** *** Each function makes its one request *)

Lemma get_keystone_token_calls (w : world) (p : string) :
  calls (fst (get_keystone_token w p)) = [auth_request p].
Proof.
  rewrite get_keystone_token_eq.
  destruct (auth_reply w) as [msg|r]; [reflexivity|].
  destruct (status_code r =? 201); [|reflexivity].
  destruct (user_id_of r); reflexivity.
Qed.

Lemma list_ec2_credentials_calls (w : world) (token uid : json) :
  calls (fst (list_ec2_credentials w token uid)) = [list_request token uid].
Proof.
  rewrite list_ec2_credentials_eq.
  destruct (list_reply w) as [msg|r]; [reflexivity|].
  destruct (status_code r =? 200); [|reflexivity].
  destruct (json_doc r) as [msg|doc]; [reflexivity|].
  destruct (get_default doc "credentials" (JArr [])); reflexivity.
Qed.

Lemma list_ec2_credentials_returns (w : world) (token uid : json) :
  exists creds, snd (list_ec2_credentials w token uid) = Ok creds.
Proof.
  rewrite list_ec2_credentials_eq.
  destruct (list_reply w) as [msg|r]; [now eexists|].
  destruct (status_code r =? 200); [|now eexists].
  destruct (json_doc r) as [msg|doc]; [now eexists|].
  destruct (get_default doc "credentials" (JArr [])); now eexists.
Qed.

Lemma create_ec2_credentials_calls (w : world) (token uid : json) :
  calls (fst (create_ec2_credentials w token uid)) = [create_request token uid].
Proof.
  rewrite create_ec2_credentials_eq.
  destruct (create_reply w) as [msg|r]; [reflexivity|].
  destruct (orb (status_code r =? 200) (status_code r =? 201)); [|reflexivity].
  destruct (json_doc r) as [msg|doc]; [reflexivity|].
  destruct (get doc "credential"); reflexivity.
Qed.

Lemma create_ec2_credentials_returns (w : world) (token uid : json) :
  exists credential, snd (create_ec2_credentials w token uid) = Ok credential.
Proof.
  rewrite create_ec2_credentials_eq.
  destruct (create_reply w) as [msg|r]; [now eexists|].
  destruct (orb (status_code r =? 200) (status_code r =? 201)); [|now eexists].
  destruct (json_doc r) as [msg|doc]; [now eexists|].
  destruct (get doc "credential"); now eexists.
Qed.

(** *** Lines 171-188 *)

Lemma create_new_credentials_calls (w : world) (token uid : json) :
  calls (fst (create_new_credentials w token uid)) = [create_request token uid].
Proof.
  unfold create_new_credentials. rewrite bind_print. cbn [fst calls].
  rewrite (obs_bind_silent calls calls_app eq_refl); [apply create_ec2_credentials_calls|].
  intros credential. quiet.
Qed.

Lemma create_new_credentials_failed (w : world) (token uid credential : json) :
  snd (create_ec2_credentials w token uid) = Ok credential ->
  truthy credential = false ->
  create_new_credentials w token uid =
  ((Print "Creating new EC2 credentials..." :: fst (create_ec2_credentials w token uid)
      ++ [Print failed_to_create])%list, Ok 1).
Proof.
  intros Hc Ht. unfold create_new_credentials.
  rewrite bind_print, (bind_ok _ _ _ Hc), Ht. reflexivity.
Qed.

Lemma create_new_credentials_record
      (w : world) (token uid : json) (kv : list (string * json)) :
  snd (create_ec2_credentials w token uid) = Ok (JObj kv) ->
  kv <> [] ->
  create_new_credentials w token uid =
  ((Print "Creating new EC2 credentials..." :: fst (create_ec2_credentials w token uid)
      ++ created_report (JObj kv))%list, Ok 0).
Proof.
  intros Hc Hkv. unfold create_new_credentials.
  rewrite bind_print, (bind_ok _ _ _ Hc).
  destruct kv as [|item kv]; [contradiction|]. cbn [truthy].
  rewrite !bind_print.
  unfold get, get_default, created_report, field.
  destruct (lookup "access" (item :: kv)), (lookup "secret" (item :: kv)); reflexivity.
Qed.
(** *** How far a run gets *)

Lemma run_shape (w : world) :
  calls (fst (run w)) = [auth_request (password w)] \/
  (exists token uid,
      calls (fst (run w)) = [auth_request (password w); list_request token uid]) \/
  (exists pre token uid,
      run w = ((pre ++ fst (create_new_credentials w token uid))%list,
               snd (create_new_credentials w token uid)) /\
      calls pre = [auth_request (password w); list_request token uid]).
Proof.
  rewrite main_eq. cbv zeta.
  pose proof (get_keystone_token_calls w (password w)) as Ha.
  destruct (snd (get_keystone_token w (password w))) as [[|token uid]|e].
  - left. cbn [fst]. now rewrite calls_app, Ha.
  - destruct (orb (negb (truthy token)) (negb (truthy uid))).
    + left. cbn [fst]. now rewrite !calls_app, Ha.
    + right. rewrite after_authentication_eq. cbv zeta.
      pose proof (list_ec2_credentials_calls w token uid) as Hl.
      destruct (list_ec2_credentials_returns w token uid) as [existing ->].
      pose proof (offer_existing_calls w existing) as Ho.
      destruct (snd (offer_existing w existing)) as [[code|]|e].
      * left. exists token, uid. cbn [fst]. now rewrite !calls_app, Ha, Hl, Ho.
      * right.
        exists (opening ++ fst (get_keystone_token w (password w)) ++ welcome uid
                  ++ fst (list_ec2_credentials w token uid)
                  ++ fst (offer_existing w existing))%list, token, uid.
        split.
        -- cbn [fst snd]. rewrite <- !app_assoc. reflexivity.
        -- now rewrite !calls_app, Ha, Hl, Ho.
      * left. exists token, uid. cbn [fst]. now rewrite !calls_app, Ha, Hl, Ho.
  - left. cbn [fst]. now rewrite calls_app, Ha.
Qed.

Lemma auth_request_not_create (p : string) (token uid : json) :
  create_request token uid <> auth_request p.
Proof. unfold create_request, auth_request. intros H. inversion H. Qed.

Lemma list_request_not_create (token uid token' uid' : json) :
  create_request token uid <> list_request token' uid'.
Proof. unfold create_request, list_request. intros H. inversion H. Qed.

Lemma creation_attempted_inv (w : world) :
  creation_attempted w ->
  exists pre token uid,
    run w = ((pre ++ fst (create_new_credentials w token uid))%list,
             snd (create_new_credentials w token uid)) /\
    calls pre = [auth_request (password w); list_request token uid].
Proof.
  intros (token & uid & Hin).
  destruct (run_shape w) as [H|[(t' & u' & H)|H]]; [| |exact H].
  - rewrite H in Hin. destruct Hin as [E|[]].
    symmetry in E. now apply auth_request_not_create in E.
  - rewrite H in Hin. destruct Hin as [E|[E|[]]]; symmetry in E.
    + now apply auth_request_not_create in E.
    + now apply list_request_not_create in E.
Qed.

(** *** Authentication, as [main] sees it *)

(** A reply with a status other than 201: line 57 returns a bare [None]
    and line 142 cannot unpack it. *)
Lemma run_rejected (w : world) (r : response) :
  auth_reply w = Reply r ->
  status_code r <> 201 ->
  run w =
  ((opening ++ [Call (auth_request (password w));
                Print ("Error authenticating: " ++ str_of_Z (status_code r));
                Print (text r)])%list,
   Raise (TypeError "cannot unpack non-iterable NoneType object")).
Proof.
  intros Hr Hs. rewrite main_eq, get_keystone_token_eq, Hr.
  apply Z.eqb_neq in Hs. rewrite Hs. reflexivity.
Qed.

Lemma run_authenticated (w : world) (t : string) (uid : json) :
  authenticated w t uid ->
  t <> "" ->
  truthy uid = true ->
  run w =
  ((opening ++ Call (auth_request (password w))
      :: fst (after_authentication w (JStr t) uid))%list,
   snd (after_authentication w (JStr t) uid)).
Proof.
  intros (r & Hr & Hs & Ht & Hu) Hne Huid.
  rewrite main_eq, get_keystone_token_eq, Hr.
  apply Z.eqb_eq in Hs. rewrite Hs, Hu, Ht. cbn [snd fst of_option truthy].
  apply String.eqb_neq in Hne. rewrite Hne, Huid. reflexivity.
Qed.

(** With a 201 reply or no reply at all, and no usable token and id,
    [main] takes the branch of lines 144-146. *)
Lemma run_not_authenticated (w : world) :
  (forall r, auth_reply w = Reply r -> status_code r = 201) ->
  (forall t uid, authenticated w t uid -> t = "" \/ truthy uid = false) ->
  exists shown,
    run w = ((opening ++ Call (auth_request (password w)) :: shown
                ++ [Print failed_to_authenticate])%list, Ok 1) /\
    calls shown = [].
Proof.
  intros H201 Hno. rewrite main_eq, get_keystone_token_eq.
  destruct (auth_reply w) as [msg|r] eqn:Hr.
  - eexists [_]. split; reflexivity.
  - rewrite (proj2 (Z.eqb_eq _ _) (H201 r eq_refl)).
    destruct (user_id_of r) as [uid|e] eqn:Hu.
    + cbn [snd fst].
      destruct (subject_token r) as [t|] eqn:Ht; cbn [of_option truthy].
      * destruct (Hno t uid) as [->|Hf].
        { exists r. auto using H201. }
        { exists []. split; reflexivity. }
        { rewrite Hf. rewrite orb_true_r. exists []. split; reflexivity. }
      * exists []. split; reflexivity.
    + eexists [_]. split; reflexivity.
Qed.

Lemma last_line_snoc (t : trace) (line : string) :
  last_line (t ++ [Print line])%list = line.
Proof. unfold last_line. rewrite printed_app. apply last_last. Qed.


(** *** Questions *)

Lemma list_ec2_credentials_questions (w : world) (token uid : json) :
  questions (fst (list_ec2_credentials w token uid)) = [].
Proof.
  rewrite list_ec2_credentials_eq.
  destruct (list_reply w) as [msg|r]; [reflexivity|].
  destruct (status_code r =? 200); [|reflexivity].
  destruct (json_doc r) as [msg|doc]; [reflexivity|].
  destruct (get_default doc "credentials" (JArr [])); reflexivity.
Qed.

Lemma create_ec2_credentials_questions (w : world) (token uid : json) :
  questions (fst (create_ec2_credentials w token uid)) = [].
Proof.
  rewrite create_ec2_credentials_eq.
  destruct (create_reply w) as [msg|r]; [reflexivity|].
  destruct (orb (status_code r =? 200) (status_code r =? 201)); [|reflexivity].
  destruct (json_doc r) as [msg|doc]; [reflexivity|].
  destruct (get doc "credential"); reflexivity.
Qed.

Lemma create_new_credentials_questions (w : world) (token uid : json) :
  questions (fst (create_new_credentials w token uid)) = [].
Proof.
  change (silent questions (create_new_credentials w token uid)).
  unfold create_new_credentials.
  eapply silent_bind; [distributes | reflexivity | reflexivity | intros _].
  eapply silent_bind;
    [distributes | reflexivity | apply create_ec2_credentials_questions | intro].
  quiet.
Qed.

(** *** After the listing *)

Lemma after_authentication_nothing_listed (w : world) (token uid existing : json) :
  snd (list_ec2_credentials w token uid) = Ok existing ->
  truthy existing = false ->
  after_authentication w token uid =
  ((welcome uid ++ fst (list_ec2_credentials w token uid)
      ++ fst (create_new_credentials w token uid))%list,
   snd (create_new_credentials w token uid)).
Proof.
  intros Hl Ht. rewrite after_authentication_eq. cbv zeta.
  rewrite Hl, (offer_existing_falsy w existing Ht). reflexivity.
Qed.

Lemma after_authentication_records
      (w : world) (token uid cred : json) (more : list json) :
  snd (list_ec2_credentials w token uid) = Ok (JArr (cred :: more)) ->
  Forall is_record (cred :: more) ->
  after_authentication w token uid =
  if affirmative (answer w) then
    ((welcome uid ++ fst (list_ec2_credentials w token uid)
        ++ (found_report (cred :: more) ++ [Print ""; Input question])
        ++ fst (create_new_credentials w token uid))%list,
     snd (create_new_credentials w token uid))
  else
    ((welcome uid ++ fst (list_ec2_credentials w token uid)
        ++ (found_report (cred :: more) ++ [Print ""; Input question])
        ++ reuse_report cred)%list, Ok 0).
Proof.
  intros Hl Hr. rewrite after_authentication_eq. cbv zeta.
  rewrite Hl, (offer_existing_records w cred more Hr). cbn [fst snd].
  destruct (affirmative (answer w)).
  - rewrite app_nil_r. reflexivity.
  - rewrite <- app_assoc. reflexivity.
Qed.


(** *** What is printed is on the console *)

Lemma occurs_prefixed (x s extra : string) : occurs x s -> occurs x (extra ++ s).
Proof.
  intros (before & after & ->). exists (extra ++ before), after.
  now rewrite append_assoc.
Qed.

Lemma printed_occurs (t : trace) (line : string) :
  In line (printed t) -> occurs (line ++ nl) (console t).
Proof.
  induction t as [|[l|p|p|rq] t IH]; cbn [printed console]; intros H.
  - contradiction.
  - destruct H as [->|H].
    + exists "", (console t). cbn [append]. now rewrite append_assoc.
    + apply occurs_prefixed. change (l ++ nl ++ console t) with (l ++ (nl ++ console t)).
      apply occurs_prefixed. now apply IH.
  - do 2 apply occurs_prefixed. now apply IH.
  - apply occurs_prefixed. now apply IH.
  - now apply IH.
Qed.

(** *** The end of a run that reached the creation *)

Lemma run_creation_failed (w : world) :
  creation_attempted w ->
  (forall token uid, snd (create_ec2_credentials w token uid) = Ok JNull) ->
  exists pre token uid,
    run w = ((pre ++ Print "Creating new EC2 credentials..."
                :: fst (create_ec2_credentials w token uid)
                ++ [Print failed_to_create])%list, Ok 1).
Proof.
  intros Hc Hnull.
  destruct (creation_attempted_inv w Hc) as (pre & token & uid & Hrun & _).
  exists pre, token, uid.
  now rewrite Hrun, (create_new_credentials_failed w token uid JNull (Hnull token uid)).
Qed.

Lemma run_creation_failed_end (w : world) :
  creation_attempted w ->
  (forall token uid, snd (create_ec2_credentials w token uid) = Ok JNull) ->
  last_line (fst (run w)) = failed_to_create /\ snd (run w) = Ok 1.
Proof.
  intros Hc Hnull.
  destruct (run_creation_failed w Hc Hnull) as (pre & token & uid & ->).
  cbn [fst snd]. split; [|reflexivity].
  rewrite app_comm_cons, app_assoc. apply last_line_snoc.
Qed.

Lemma refused_returns_none (w : world) (token uid : json) :
  creation_refused (create_reply w) ->
  snd (create_ec2_credentials w token uid) = Ok JNull.
Proof.
  intros Hr. rewrite create_ec2_credentials_eq.
  destruct (create_reply w) as [msg|r]; [reflexivity|].
  destruct Hr as [H200 H201].
  apply Z.eqb_neq in H200, H201. now rewrite H200, H201.
Qed.

Lemma missing_key_returns_none (w : world) (r : response) (token uid : json) :
  create_reply w = Reply r ->
  credential_of r = None ->
  snd (create_ec2_credentials w token uid) = Ok JNull.
Proof.
  intros Hr Hk. rewrite create_ec2_credentials_eq, Hr. unfold credential_of in Hk.
  destruct (orb (status_code r =? 200) (status_code r =? 201)); [|reflexivity].
  destruct (json_doc r) as [msg|doc]; [reflexivity|].
  destruct doc; try reflexivity.
  unfold get, get_default. now rewrite Hk.
Qed.

(** *** The password *)

(** The password reaches the trace in the authentication request alone:
    what follows that request, and how [main] ends, is the same for
    every password. *)
Lemma run_with_password (w : world) :
  exists rest outcome,
    forall p, run (with_password w p)
              = ((opening ++ Call (auth_request p) :: rest)%list, outcome).
Proof.
  destruct (auth_reply w) as [msg|r] eqn:Hr.
  - do 2 eexists. intros p.
    rewrite main_eq, get_keystone_token_eq. cbn [with_password auth_reply password].
    rewrite Hr. reflexivity.
  - destruct (status_code r =? 201) eqn:Hs.
    + destruct (user_id_of r) as [uid|e] eqn:Hu.
      * destruct (orb (negb (truthy (of_option (subject_token r)))) (negb (truthy uid)))
          eqn:Hg.
        -- do 2 eexists. intros p.
           rewrite main_eq, get_keystone_token_eq.
           cbn [with_password auth_reply password].
           rewrite Hr, Hs, Hu. cbn [fst snd]. rewrite Hg. reflexivity.
        -- exists (fst (after_authentication w (of_option (subject_token r)) uid)),
             (snd (after_authentication w (of_option (subject_token r)) uid)).
           intros p.
           rewrite main_eq, get_keystone_token_eq.
           cbn [with_password auth_reply password].
           rewrite Hr, Hs, Hu. cbn [fst snd]. rewrite Hg. reflexivity.
      * do 2 eexists. intros p.
        rewrite main_eq, get_keystone_token_eq. cbn [with_password auth_reply password].
        rewrite Hr, Hs, Hu. reflexivity.
    + do 2 eexists. intros p.
      rewrite main_eq, get_keystone_token_eq. cbn [with_password auth_reply password].
      rewrite Hr, Hs. reflexivity.
Qed.

(** *** The model on small inputs *)

Example affirmative_y : affirmative "y" = true.
Proof. reflexivity. Qed.

Example affirmative_capital_and_blanks : affirmative "  Y  " = true.
Proof. reflexivity. Qed.

Example affirmative_yes_is_not : affirmative "yes" = false.
Proof. reflexivity. Qed.

Example affirmative_empty_is_not : affirmative "" = false.
Proof. reflexivity. Qed.

Example strip_keeps_inner_blanks : strip (" a b " ++ nl) = "a b".
Proof. reflexivity. Qed.

Example str_of_none : str JNull = "None".
Proof. reflexivity. Qed.

Example str_of_list : str (JArr [JNull; JInt (-3); JStr "x"]) = "[None, -3, 'x']".
Proof. reflexivity. Qed.

Example str_of_key_error : str_exn (KeyError (JStr "token")) = "'token'".
Proof. reflexivity. Qed.

(** Outside ASCII a printable character is copied and any other is
    written by its code point: a no-break space, a line separator and a
    check mark in a list. *)
Example str_of_list_outside_ascii :
  str (JArr [JStr (bytes [194; 160]%nat); JStr (bytes [226; 128; 168]%nat);
             JStr (bytes [226; 156; 147]%nat)])
  = "['\xa0', '\u2028', '" ++ bytes [226; 156; 147]%nat ++ "']".
Proof. reflexivity. Qed.

(** [len] and [v[0]] of a text go by characters, not by bytes. *)
Example len_of_no_break_space_y : len (JStr no_break_space_y) = Ok 2.
Proof. reflexivity. Qed.

Example first_of_no_break_space_y :
  first (JStr no_break_space_y) = Ok (JStr (bytes [194; 160]%nat)).
Proof. reflexivity. Qed.

(** [token_data['token']] of a body with no such key: the [KeyError]
    that lines 65-67 catch. *)
Example body_without_token :
  user_id_of empty_object_response = Raise (KeyError (JStr "token")).
Proof. reflexivity. Qed.

(** The shapes of the documents are not checked: a listing that has a
    number under [credentials] is returned as it is, and [len] of line
    157 raises in [main]. *)
Example number_listed_raises :
  snd (list_ec2_credentials number_listed (JStr "gAAAAABtoken") (JStr "u1"))
  = Ok (JInt 5) /\
  snd (run number_listed) = Raise (TypeError "object of type 'int' has no len()").
Proof. split; reflexivity. Qed.

(** Likewise a created [credential] that is a string has no [get]. *)
Example string_created_raises :
  snd (run string_created)
  = Raise (AttributeError "'str' object has no attribute 'get'").
Proof. reflexivity. Qed.
(** ** The claims *)

(** C1 (fails on the code).  Claim: whatever the service answers and the
    operator types, a run ends either by printing a credential and
    returning 0 or by printing a diagnostic and returning 1, and never
    by an exception.  When the service rejects the password with
    status 401, [get_keystone_token] prints the status and the body and
    returns a bare [None] (line 57); line 142 cannot unpack it, and
    [main] ends by a [TypeError] without reaching the diagnostic and the
    [return 1] of lines 145-146. *)
Theorem C1_rejected_password_escapes_main :
  run unauthorized =
  ((opening ++ [Call (auth_request "hunter2");
                Print "Error authenticating: 401";
                Print "Unauthorized"])%list,
   Raise (TypeError "cannot unpack non-iterable NoneType object")).
Proof. reflexivity. Qed.

(** C2.  When the authentication request is answered with a status
    other than 201, the script reports the failure (the line
    [Error authenticating: <status>]), the process ends with status 1,
    and the authentication request is the only request of the run. *)
Theorem C2_rejected_authentication_halts (w : world) (r : response) :
  auth_reply w = Reply r ->
  status_code r <> 201 ->
  In ("Error authenticating: " ++ str_of_Z (status_code r)) (printed (fst (run w))) /\
  exit_status (snd (run w)) = 1 /\
  calls (fst (run w)) = [auth_request (password w)].
Proof.
  intros Hr Hs. rewrite (run_rejected w r Hr Hs). cbn [fst snd exit_status].
  rewrite printed_app, calls_app. repeat split.
  apply in_or_app. right. now left.
Qed.

(** Scenario D, by C2 at the world [unauthorized]. *)
Lemma C2_scenario_D :
  In "Error authenticating: 401" (printed (fst (run unauthorized))) /\
  exit_status (snd (run unauthorized)) = 1 /\
  calls (fst (run unauthorized)) = [auth_request "hunter2"].
Proof.
  apply (C2_rejected_authentication_halts unauthorized unauthorized_response).
  - reflexivity.
  - discriminate.
Defined.

(** C3, read literally, fails: a 201 reply whose [X-Subject-Token]
    header is there with an empty value, and whose body has
    [token.user.id], makes [get_keystone_token] return the empty token. *)
Lemma C3_blank_header_returns_empty_token :
  accepted_with_header blank_token /\
  snd (get_keystone_token blank_token "hunter2") = Ok (Pair (JStr "") (JStr "u1")) /\
  (returns_token blank_token "hunter2" -> False).
Proof.
  split; [|split].
  - eexists. repeat split; [discriminate | now exists (JStr "u1")].
  - reflexivity.
  - intros (t & uid & Hne & H). cbn in H. inversion H. now subst.
Qed.

(** C3, as amended.  [get_keystone_token] returns the pair of a token
    [t] and a subject id exactly when the service answers 201 with the
    header [X-Subject-Token] of value [t] and a body that has
    [token.user.id]; so the token is not empty exactly when the header's
    value is not.  The body of scenario A yields the subject id [u1].
    When the answer is a 201 or the transport fails, and no token that
    is not empty comes with a subject id that counts as true, [main]
    prints the authentication failure last, returns 1 and makes no
    other request. *)
Theorem C3_authenticate_returns_pair (w : world) (p : string) :
  (forall t uid,
      snd (get_keystone_token w p) = Ok (Pair (JStr t) uid) <-> authenticated w t uid) /\
  (forall r, auth_reply w = Reply r -> status_code r = 201 ->
             json_doc r = inr scenario_A_doc ->
             snd (get_keystone_token w p)
             = Ok (Pair (of_option (subject_token r)) (JStr "u1"))) /\
  ((forall r, auth_reply w = Reply r -> status_code r = 201) ->
   (forall t uid, authenticated w t uid -> t = "" \/ truthy uid = false) ->
   snd (run w) = Ok 1 /\
   last_line (fst (run w)) = failed_to_authenticate /\
   calls (fst (run w)) = [auth_request (password w)]).
Proof.
  split; [|split].
  - intros t uid. rewrite get_keystone_token_eq. unfold authenticated. split.
    + destruct (auth_reply w) as [msg|r]; [discriminate|].
      destruct (status_code r =? 201) eqn:Hs; [|discriminate].
      destruct (user_id_of r) as [u|e] eqn:Hu; [|discriminate].
      cbn [snd]. intros H. inversion H as [[Ht Hid]].
      exists r. apply Z.eqb_eq in Hs.
      destruct (subject_token r); [|discriminate].
      inversion Ht. now subst.
    + intros (r & -> & Hs & Ht & Hu).
      apply Z.eqb_eq in Hs. now rewrite Hs, Hu, Ht.
  - intros r Hr Hs Hd. rewrite get_keystone_token_eq, Hr.
    apply Z.eqb_eq in Hs. rewrite Hs. unfold user_id_of. now rewrite Hd.
  - intros H201 Hno.
    destruct (run_not_authenticated w H201 Hno) as (shown & -> & Hc).
    cbn [fst snd]. repeat split.
    + change (Call (auth_request (password w)) :: shown ++ [Print failed_to_authenticate])%list
        with ((Call (auth_request (password w)) :: shown) ++ [Print failed_to_authenticate])%list.
      rewrite app_assoc. apply last_line_snoc.
    + rewrite calls_app. cbn [calls opening app]. now rewrite calls_app, Hc.
Qed.

(** Scenario A and an unreachable service, by C3. *)
Lemma C3_scenario_A :
  snd (get_keystone_token scenario_B "hunter2")
  = Ok (Pair (JStr "gAAAAABtoken") (JStr "u1")) /\
  snd (run unreachable) = Ok 1.
Proof.
  split.
  - apply (proj1 (C3_authenticate_returns_pair scenario_B "hunter2")).
    eexists. repeat split.
  - apply (proj2 (proj2 (C3_authenticate_returns_pair unreachable "hunter2"))).
    + intros r H. discriminate H.
    + intros t uid (r & H & _). discriminate H.
Defined.



(** C5.  After a successful authentication: when the listing gives a
    list of records that is not empty, the operator is asked once;
    unless the reply is the explicit yes, the run ends with the report
    of the first record, returns 0 and creates nothing; on the explicit
    yes it goes on to the creation request.  When the listing gives the
    empty list, nothing is asked and the creation request is made. *)
Theorem C5_decision (w : world) (t : string) (uid : json) :
  authenticated w t uid ->
  t <> "" ->
  truthy uid = true ->
  (forall cred more,
      snd (list_ec2_credentials w (JStr t) uid) = Ok (JArr (cred :: more)) ->
      Forall is_record (cred :: more) ->
      questions (fst (run w)) = [question] /\
      (affirmative (answer w) = false ->
       snd (run w) = Ok 0 /\
       (exists before, fst (run w) = (before ++ reuse_report cred)%list) /\
       calls (fst (run w)) = [auth_request (password w); list_request (JStr t) uid]) /\
      (affirmative (answer w) = true ->
       calls (fst (run w))
       = [auth_request (password w); list_request (JStr t) uid;
          create_request (JStr t) uid])) /\
  (snd (list_ec2_credentials w (JStr t) uid) = Ok (JArr []) ->
   questions (fst (run w)) = [] /\
   calls (fst (run w))
   = [auth_request (password w); list_request (JStr t) uid; create_request (JStr t) uid]).
Proof.
  intros Ha Hne Hu. rewrite (run_authenticated w t uid Ha Hne Hu). split.
  - intros cred more Hl Hr.
    rewrite (after_authentication_records w (JStr t) uid cred more Hl Hr).
    assert (Hq : forall creds, questions (found_report creds) = []).
    { intros creds. unfold found_report. cbn [questions].
      induction creds as [|c creds IH]; [reflexivity | exact IH]. }
    assert (Hc : forall creds, calls (found_report creds) = []).
    { intros creds. unfold found_report. cbn [calls].
      induction creds as [|c creds IH]; [reflexivity | exact IH]. }
    destruct (affirmative (answer w)); cbn [fst snd].
    + split; [|split; [discriminate|intros _]].
      * rewrite questions_app. cbn [questions opening app].
        rewrite !questions_app, list_ec2_credentials_questions, Hq,
          create_new_credentials_questions. reflexivity.
      * rewrite calls_app. cbn [calls opening app].
        rewrite !calls_app, list_ec2_credentials_calls, Hc,
          create_new_credentials_calls. reflexivity.
    + split; [|split; [intros _|discriminate]].
      * rewrite questions_app. cbn [questions opening app].
        rewrite !questions_app, list_ec2_credentials_questions, Hq. reflexivity.
      * split; [reflexivity|]. split.
        -- eexists. rewrite app_comm_cons, !app_assoc. reflexivity.
        -- rewrite calls_app. cbn [calls opening app].
           rewrite !calls_app, list_ec2_credentials_calls, Hc. reflexivity.
  - intros Hl.
    rewrite (after_authentication_nothing_listed w (JStr t) uid (JArr []) Hl eq_refl).
    cbn [fst]. split.
    + rewrite questions_app. cbn [questions opening app].
      rewrite !questions_app, list_ec2_credentials_questions,
        create_new_credentials_questions. reflexivity.
    + rewrite calls_app. cbn [calls opening app].
      rewrite !calls_app, list_ec2_credentials_calls, create_new_credentials_calls.
      reflexivity.
Qed.

(** The operator declines, the operator accepts, and nothing is listed, by C5. *)
Lemma C5_three_decisions :
  (questions (fst (run scenario_B)) = [question] /\ snd (run scenario_B) = Ok 0) /\
  calls (fst (run wants_new))
  = [auth_request "hunter2";
     list_request (JStr "gAAAAABtoken") (JStr "u1");
     create_request (JStr "gAAAAABtoken") (JStr "u1")] /\
  questions (fst (run scenario_C)) = [].
Proof.
  assert (Ha : forall w, auth_reply w = accepted ->
                         authenticated w "gAAAAABtoken" (JStr "u1")).
  { intros w H. eexists. rewrite H. repeat split. }
  assert (Hne : "gAAAAABtoken" <> "") by discriminate.
  assert (Hr : Forall is_record [record_AK1]) by (repeat constructor).
  split; [|split].
  - destruct (C5_decision scenario_B "gAAAAABtoken" (JStr "u1") (Ha scenario_B eq_refl) Hne eq_refl)
      as [H _].
    destruct (H record_AK1 [] eq_refl Hr) as (Hq & Hno & _).
    split; [exact Hq | exact (proj1 (Hno eq_refl))].
  - destruct (C5_decision wants_new "gAAAAABtoken" (JStr "u1") (Ha wants_new eq_refl) Hne eq_refl)
      as [H _].
    destruct (H record_AK1 [] eq_refl Hr) as (_ & _ & Hyes).
    exact (Hyes eq_refl).
  - destruct (C5_decision scenario_C "gAAAAABtoken" (JStr "u1") (Ha scenario_C eq_refl) Hne eq_refl)
      as [_ H].
    exact (proj1 (H eq_refl)).
Defined.

(** C6.  Scenario B: the listing answers 200 with the one record of
    access [AK1] and secret [SK1], and the operator types [n].  The
    lines printed after the listing are exactly those below, among them
    [Access Key ID: AK1] and [Secret Access Key: SK1], and the process
    ends with status 0. *)
Theorem C6_scenario_B (w : world) (t : string) (uid : json) (r : response) :
  authenticated w t uid ->
  t <> "" ->
  truthy uid = true ->
  list_reply w = Reply r ->
  status_code r = 200 ->
  json_doc r = inr (JObj [("credentials", JArr [record_AK1])]) ->
  answer w = "n" ->
  printed (fst (run w)) =
  (printed opening ++ printed (welcome uid) ++
   ["Found 1 existing EC2 credential(s):";
    "  - Access Key: AK1";
    "";
    (nl ++ "Using existing credentials:")%string;
    "Access Key ID: AK1";
    "Secret Access Key: SK1";
    (nl ++ "Add these to ~/.aws/credentials under [infomaniak] profile")%string])%list /\
  snd (run w) = Ok 0 /\
  exit_status (snd (run w)) = 0.
Proof.
  intros Ha Hne Hu Hr Hs Hd Hn.
  rewrite (run_authenticated w t uid Ha Hne Hu).
  assert (Hl : list_ec2_credentials w (JStr t) uid
               = ([Call (list_request (JStr t) uid)], Ok (JArr [record_AK1]))).
  { rewrite list_ec2_credentials_eq, Hr.
    apply Z.eqb_eq in Hs. rewrite Hs, Hd. reflexivity. }
  rewrite (after_authentication_records w (JStr t) uid record_AK1 []);
    [|now rewrite Hl|repeat constructor].
  rewrite Hl, Hn. cbn [affirmative fst snd exit_status].
  rewrite printed_app. repeat split.
Qed.

(** Scenario B at the world [scenario_B], by C6. *)
Lemma C6_scenario_B_run :
  printed (fst (run scenario_B)) =
  (printed opening ++ printed (welcome (JStr "u1")) ++
   ["Found 1 existing EC2 credential(s):";
    "  - Access Key: AK1";
    "";
    (nl ++ "Using existing credentials:")%string;
    "Access Key ID: AK1";
    "Secret Access Key: SK1";
    (nl ++ "Add these to ~/.aws/credentials under [infomaniak] profile")%string])%list /\
  snd (run scenario_B) = Ok 0 /\
  exit_status (snd (run scenario_B)) = 0.
Proof.
  refine (C6_scenario_B scenario_B "gAAAAABtoken" (JStr "u1") _ _ _ _ eq_refl eq_refl
            eq_refl eq_refl).
  - eexists. repeat split.
  - discriminate.
  - reflexivity.
Defined.

(** C7.  When the creation request is answered with status 200 or 201
    and a body whose [credential] is a record with the strings [a] and
    [s] under [access] and [secret], the lines printed carry [a] and [s]
    as they are, each following its label up to the end of the line, and
    the run returns 0. *)
Theorem C7_created_record_is_printed
        (w : world) (r : response) (kv : list (string * json)) (a s : string) :
  creation_attempted w ->
  create_reply w = Reply r ->
  status_code r = 200 \/ status_code r = 201 ->
  credential_of r = Some (JObj kv) ->
  lookup "access" kv = Some (JStr a) ->
  lookup "secret" kv = Some (JStr s) ->
  In (nl ++ "Access Key ID: " ++ a) (printed (fst (run w))) /\
  In ("Secret Access Key: " ++ s) (printed (fst (run w))) /\
  In ("  aws configure set aws_access_key_id " ++ a ++ " --profile infomaniak")
     (printed (fst (run w))) /\
  In ("  aws configure set aws_secret_access_key " ++ s ++ " --profile infomaniak")
     (printed (fst (run w))) /\
  occurs (nl ++ "Access Key ID: " ++ a ++ nl) (console (fst (run w))) /\
  occurs ("Secret Access Key: " ++ s ++ nl) (console (fst (run w))) /\
  snd (run w) = Ok 0.
Proof.
  intros Hc Hr Hs Hk Ha Hsec.
  destruct (creation_attempted_inv w Hc) as (pre & token & uid & Hrun & _).
  assert (Hret : snd (create_ec2_credentials w token uid) = Ok (JObj kv)).
  { rewrite create_ec2_credentials_eq, Hr.
    replace (orb (status_code r =? 200) (status_code r =? 201)) with true
      by (destruct Hs as [-> | ->]; reflexivity).
    unfold credential_of in Hk.
    destruct (json_doc r) as [msg|doc]; [discriminate|].
    destruct doc; try discriminate.
    unfold get, get_default. now rewrite Hk. }
  assert (Hkv : kv <> []) by (intros ->; discriminate).
  rewrite Hrun, (create_new_credentials_record w token uid kv Hret Hkv).
  cbn [fst snd].
  set (T := (pre ++ Print "Creating new EC2 credentials..."
               :: fst (create_ec2_credentials w token uid)
               ++ created_report (JObj kv))%list).
  assert (Hrep : forall line, In line (printed (created_report (JObj kv))) ->
                              In line (printed T)).
  { intros line H. unfold T. rewrite printed_app. apply in_or_app. right.
    cbn [printed]. right. rewrite printed_app. apply in_or_app. now right. }
  unfold created_report, field in Hrep. rewrite Ha, Hsec in Hrep.
  cbn [printed str] in Hrep.
  assert (H1 : In (nl ++ "Access Key ID: " ++ a) (printed T))
    by (apply Hrep; cbn [In]; tauto).
  assert (H2 : In ("Secret Access Key: " ++ s) (printed T))
    by (apply Hrep; cbn [In]; tauto).
  repeat split; try assumption.
  - apply Hrep. cbn [In]. tauto.
  - apply Hrep. cbn [In]. tauto.
  - apply printed_occurs in H1. now rewrite !append_assoc in H1.
  - apply printed_occurs in H2. now rewrite !append_assoc in H2.
Qed.

(** Scenario C: the record created is printed, by C7. *)
Lemma C7_scenario_C :
  In (nl ++ "Access Key ID: AK2") (printed (fst (run scenario_C))) /\
  In "Secret Access Key: SK2" (printed (fst (run scenario_C))) /\
  snd (run scenario_C) = Ok 0.
Proof.
  assert (Hc : creation_attempted scenario_C).
  { exists (JStr "gAAAAABtoken"), (JStr "u1"). vm_compute. tauto. }
  destruct (C7_created_record_is_printed scenario_C
              created_response
              [("access", JStr "AK2"); ("secret", JStr "SK2")] "AK2" "SK2"
              Hc eq_refl (or_intror eq_refl) eq_refl eq_refl eq_refl)
    as (H1 & H2 & _ & _ & _ & _ & H7).
  exact (conj H1 (conj H2 H7)).
Defined.

(** C8.  When the creation request is answered with a status other than
    200 and 201, or the transport fails, the console shows the error
    ([Error creating EC2 credentials: <status>] and the body, or
    [Error creating credentials: <message>]), the last line printed is
    [Failed to create EC2 credentials.], and the run returns 1. *)
Theorem C8_refused_creation_fails (w : world) :
  creation_attempted w ->
  creation_refused (create_reply w) ->
  match create_reply w with
  | Reply r =>
      In ("Error creating EC2 credentials: " ++ str_of_Z (status_code r))
         (printed (fst (run w))) /\
      In (text r) (printed (fst (run w)))
  | NoReply msg => In ("Error creating credentials: " ++ msg) (printed (fst (run w)))
  end /\
  last_line (fst (run w)) = failed_to_create /\
  snd (run w) = Ok 1 /\
  exit_status (snd (run w)) <> 0.
Proof.
  intros Hc Hr.
  pose proof (fun token uid => refused_returns_none w token uid Hr) as Hnull.
  destruct (run_creation_failed_end w Hc Hnull) as [Hlast Hret].
  split; [|split; [exact Hlast | split; [exact Hret | now rewrite Hret]]].
  destruct (run_creation_failed w Hc Hnull) as (pre & token & uid & ->).
  cbn [fst]. rewrite printed_app. cbn [printed]. rewrite printed_app.
  rewrite create_ec2_credentials_eq.
  destruct (create_reply w) as [msg|r].
  - apply in_or_app. right. right. apply in_or_app. left. now left.
  - destruct Hr as [H200 H201]. apply Z.eqb_neq in H200, H201.
    rewrite H200, H201. cbn [orb fst printed].
    split; apply in_or_app; right; right; apply in_or_app; left; cbn [In]; tauto.
Qed.

(** A creation refused with status 403, by C8. *)
Lemma C8_creation_forbidden :
  (In "Error creating EC2 credentials: 403" (printed (fst (run creation_forbidden))) /\
   In "Forbidden" (printed (fst (run creation_forbidden)))) /\
  last_line (fst (run creation_forbidden)) = failed_to_create /\
  snd (run creation_forbidden) = Ok 1 /\
  exit_status (snd (run creation_forbidden)) <> 0.
Proof.
  apply (C8_refused_creation_fails creation_forbidden).
  - exists (JStr "gAAAAABtoken"), (JStr "u1"). vm_compute. tauto.
  - split; discriminate.
Defined.

(** C10.  When the creation request is answered with status 200 or 201
    and the body has no [credential] key, [create_ec2_credentials]
    returns [None], the last line printed is [Failed to create EC2
    credentials.] and the run returns 1: the same end as that of any run
    whose creation request is refused. *)
Theorem C10_missing_credential_key (w : world) (r : response) :
  creation_attempted w ->
  create_reply w = Reply r ->
  status_code r = 200 \/ status_code r = 201 ->
  credential_of r = None ->
  (forall token uid, snd (create_ec2_credentials w token uid) = Ok JNull) /\
  last_line (fst (run w)) = failed_to_create /\
  snd (run w) = Ok 1 /\
  (forall w', creation_attempted w' -> creation_refused (create_reply w') ->
              last_line (fst (run w')) = last_line (fst (run w)) /\
              snd (run w') = snd (run w)).
Proof.
  intros Hc Hr _ Hk.
  pose proof (fun token uid => missing_key_returns_none w r token uid Hr Hk) as Hnull.
  destruct (run_creation_failed_end w Hc Hnull) as [Hlast Hret].
  split; [exact Hnull|]. split; [exact Hlast|]. split; [exact Hret|].
  intros w' Hc' Hr'. rewrite Hlast, Hret.
  apply (run_creation_failed_end w' Hc').
  intros token uid. now apply refused_returns_none.
Qed.

(** A creation answered 200 with an empty object, by C10. *)
Lemma C10_creation_without_key :
  (forall token uid,
      snd (create_ec2_credentials creation_without_key token uid) = Ok JNull) /\
  last_line (fst (run creation_without_key)) = failed_to_create /\
  snd (run creation_without_key) = Ok 1.
Proof.
  destruct (C10_missing_credential_key creation_without_key empty_object_response)
    as (H1 & H2 & H3 & _).
  - exists (JStr "gAAAAABtoken"), (JStr "u1"). vm_compute. tauto.
  - reflexivity.
  - left. reflexivity.
  - reflexivity.
  - exact (conj H1 (conj H2 H3)).
Defined.
(** C9.  Two runs that differ in the password alone show the same
    console text and print the same lines, end the same way, and make
    the same requests after the first one; the first request is the
    authentication request, whose body carries the password under
    [auth.identity.password.user.password].  Nothing typed at the
    password prompt is shown: the prompt alone is on the console. *)
Theorem C9_password_stays_in_auth_request (w : world) (p1 p2 : string) :
  console (fst (run (with_password w p1))) = console (fst (run (with_password w p2))) /\
  printed (fst (run (with_password w p1))) = printed (fst (run (with_password w p2))) /\
  snd (run (with_password w p1)) = snd (run (with_password w p2)) /\
  (exists others,
      calls (fst (run (with_password w p1))) = auth_request p1 :: others /\
      calls (fst (run (with_password w p2))) = auth_request p2 :: others) /\
  req_json (auth_request p1) = Some (auth_data p1) /\
  password_field (auth_data p1) = Ok (JStr p1).
Proof.
  destruct (run_with_password w) as (rest & outcome & H).
  rewrite (H p1), (H p2). cbn [fst snd].
  split; [|split; [|split; [|split; [|split]]]].
  - rewrite !console_app. reflexivity.
  - rewrite !printed_app. reflexivity.
  - reflexivity.
  - exists (calls rest). rewrite !calls_app. split; reflexivity.
  - reflexivity.
  - reflexivity.
Qed.

(** ** Further properties of the script *)

(** *** [get_user_id_from_token] *)

Lemma get_user_id_from_token_eq (rp : reply) (token : json) :
  get_user_id_from_token rp token =
  match rp with
  | NoReply msg =>
      ([Call (token_request token); Print ("Error getting user ID: " ++ msg)], Ok JNull)
  | Reply r =>
      if status_code r =? 200 then
        match get_path r with
        | Ok user_id => ([Call (token_request token)], Ok user_id)
        | Raise e =>
            ([Call (token_request token); Print ("Error getting user ID: " ++ str_exn e)],
             Ok JNull)
        end
      else ([Call (token_request token)], Ok JNull)
  end.
Proof.
  unfold get_user_id_from_token, get_path.
  destruct rp as [msg|r]; [reflexivity|].
  cbn [call bind try_except].
  destruct (status_code r =? 200); [|reflexivity].
  unfold json_of.
  destruct (json_doc r) as [msg|doc]; [reflexivity|]. cbn.
  destruct (get_default doc "token" (JObj [])) as [tok|e]; [|reflexivity]. cbn.
  destruct (get_default tok "user" (JObj [])) as [user|e]; [|reflexivity]. cbn.
  destruct (get user "id") as [uid|e]; reflexivity.
Qed.

Lemma getitem_get_default (v : json) (k : string) (d x : json) :
  getitem v k = Ok x -> get_default v k d = Ok x.
Proof.
  destruct v; try discriminate. cbn.
  destruct (lookup k items); [trivial | discriminate].
Qed.

Lemma getitem_key_error (v : json) (k : string) (d key : json) :
  getitem v k = Raise (KeyError key) -> get_default v k d = Ok d.
Proof.
  destruct v; try discriminate. cbn.
  destruct (lookup k items); [discriminate | trivial].
Qed.

Lemma getitem_other_error (v : json) (k : string) (d : json) (e : exn) :
  getitem v k = Raise e ->
  (forall key, e <> KeyError key) ->
  exists e', get_default v k d = Raise e'.
Proof.
  destruct v; cbn; intros H Hk; try (eexists; reflexivity).
  destruct (lookup k items); [discriminate|].
  inversion H; subst. now destruct (Hk (JStr k)).
Qed.

(** X1.  [get_user_id_from_token] never raises, whatever the service
    does, and makes exactly one request: the GET of the token with the
    token in both headers. *)
Theorem X1_get_user_id_never_raises (rp : reply) (token : json) :
  (exists v, snd (get_user_id_from_token rp token) = Ok v) /\
  calls (fst (get_user_id_from_token rp token)) = [token_request token].
Proof.
  rewrite get_user_id_from_token_eq.
  destruct rp as [msg|r]; [split; [now eexists | reflexivity]|].
  destruct (status_code r =? 200); [|split; [now eexists | reflexivity]].
  destruct (get_path r); split; try reflexivity; now eexists.
Qed.

(** X2.  A status other than 200 makes [get_user_id_from_token] return
    [None] without printing anything. *)
Theorem X2_get_user_id_silent_on_status (r : response) (token : json) :
  status_code r <> 200 ->
  get_user_id_from_token (Reply r) token = ([Call (token_request token)], Ok JNull).
Proof.
  intros Hs. rewrite get_user_id_from_token_eq.
  apply Z.eqb_neq in Hs. now rewrite Hs.
Qed.

(** A lookup refused with status 403, by X2. *)
Lemma X2_forbidden_lookup :
  get_user_id_from_token forbidden (JStr "gAAAAABtoken")
  = ([Call (token_request (JStr "gAAAAABtoken"))], Ok JNull).
Proof.
  apply (X2_get_user_id_silent_on_status forbidden_response). discriminate.
Defined.

(** X3.  On a 200 reply, [get_user_id_from_token] returns the id that
    the subscripts of [get_keystone_token] read from the same body, and
    prints nothing. *)
Theorem X3_get_user_id_agrees (r : response) (token user_id : json) :
  status_code r = 200 ->
  user_id_of r = Ok user_id ->
  get_user_id_from_token (Reply r) token = ([Call (token_request token)], Ok user_id).
Proof.
  intros Hs Hu. rewrite get_user_id_from_token_eq.
  apply Z.eqb_eq in Hs. rewrite Hs.
  unfold user_id_of in Hu. unfold get_path.
  destruct (json_doc r) as [msg|doc]; [discriminate|].
  destruct (getitem doc "token") as [tok|e] eqn:H1; [|discriminate].
  destruct (getitem tok "user") as [user|e] eqn:H2; [|discriminate].
  rewrite (getitem_get_default _ _ (JObj []) _ H1),
    (getitem_get_default _ _ (JObj []) _ H2).
  unfold get. now rewrite (getitem_get_default _ _ JNull _ Hu).
Qed.

(** The body of scenario A, by X3. *)
Lemma X3_scenario_A_lookup :
  get_user_id_from_token (Reply token_info_response) (JStr "gAAAAABtoken")
  = ([Call (token_request (JStr "gAAAAABtoken"))], Ok (JStr "u1")).
Proof.
  apply (X3_get_user_id_agrees token_info_response); reflexivity.
Defined.

(** X4.  Where the subscripts of [get_keystone_token] would stop at a
    missing key, [get_user_id_from_token] on a 200 reply returns [None]
    and prints nothing. *)
Theorem X4_get_user_id_missing_key (r : response) (token key : json) :
  status_code r = 200 ->
  user_id_of r = Raise (KeyError key) ->
  get_user_id_from_token (Reply r) token = ([Call (token_request token)], Ok JNull).
Proof.
  intros Hs Hu. rewrite get_user_id_from_token_eq.
  apply Z.eqb_eq in Hs. rewrite Hs.
  unfold user_id_of in Hu. unfold get_path.
  destruct (json_doc r) as [msg|doc]; [discriminate|].
  destruct (getitem doc "token") as [tok|e] eqn:H1.
  - rewrite (getitem_get_default _ _ (JObj []) _ H1).
    destruct (getitem tok "user") as [user|e] eqn:H2.
    + rewrite (getitem_get_default _ _ (JObj []) _ H2).
      unfold get. now rewrite (getitem_key_error _ _ JNull _ Hu).
    + inversion Hu; subst.
      now rewrite (getitem_key_error _ _ (JObj []) _ H2).
  - inversion Hu; subst.
    now rewrite (getitem_key_error _ _ (JObj []) _ H1).
Qed.

(** A 200 reply with an empty object, by X4. *)
Lemma X4_empty_object_lookup :
  get_user_id_from_token (Reply empty_object_response) (JStr "gAAAAABtoken")
  = ([Call (token_request (JStr "gAAAAABtoken"))], Ok JNull).
Proof.
  apply (X4_get_user_id_missing_key empty_object_response _ (JStr "token"));
    reflexivity.
Defined.

(** X5.  Where the subscripts of [get_keystone_token] would raise
    anything but a [KeyError] (a body that is not JSON, or a value on
    the path that is not an object), [get_user_id_from_token] on a 200
    reply prints one line [Error getting user ID: ...] and returns
    [None]. *)
Theorem X5_get_user_id_reports_other_errors (r : response) (token : json) (e : exn) :
  status_code r = 200 ->
  user_id_of r = Raise e ->
  (forall key, e <> KeyError key) ->
  exists detail,
    get_user_id_from_token (Reply r) token
    = ([Call (token_request token); Print ("Error getting user ID: " ++ detail)],
       Ok JNull).
Proof.
  intros Hs Hu Hk. rewrite get_user_id_from_token_eq.
  apply Z.eqb_eq in Hs. rewrite Hs.
  unfold user_id_of in Hu. unfold get_path.
  destruct (json_doc r) as [msg|doc]; [now eexists|].
  destruct (getitem doc "token") as [tok|e1] eqn:H1.
  - rewrite (getitem_get_default _ _ (JObj []) _ H1).
    destruct (getitem tok "user") as [user|e2] eqn:H2.
    + rewrite (getitem_get_default _ _ (JObj []) _ H2).
      destruct (getitem_other_error _ _ JNull _ Hu Hk) as [e' He'].
      unfold get. rewrite He'. now eexists.
    + inversion Hu; subst.
      destruct (getitem_other_error _ _ (JObj []) _ H2 Hk) as [e' ->]. now eexists.
  - inversion Hu; subst.
    destruct (getitem_other_error _ _ (JObj []) _ H1 Hk) as [e' ->]. now eexists.
Qed.

(** A 200 reply that is not JSON, by X5. *)
Lemma X5_undecodable_lookup :
  exists detail,
    get_user_id_from_token (Reply undecodable_response) (JStr "gAAAAABtoken")
    = ([Call (token_request (JStr "gAAAAABtoken"));
        Print ("Error getting user ID: " ++ detail)], Ok JNull).
Proof.
  apply (X5_get_user_id_reports_other_errors undecodable_response _
           (JSONDecodeError "Expecting value: line 1 column 1 (char 0)")).
  - reflexivity.
  - reflexivity.
  - intros key H. discriminate H.
Defined.

(** *** The three requests of [main] *)

(** X6.  [get_keystone_token] never raises and makes exactly one
    request, the POST that carries the password; what it returns is the
    bare [None] exactly when the service answers with a status other
    than 201, and a pair in every other case. *)
Theorem X6_get_keystone_token_never_raises (w : world) (p : string) :
  (exists v, snd (get_keystone_token w p) = Ok v) /\
  calls (fst (get_keystone_token w p)) = [auth_request p] /\
  (snd (get_keystone_token w p) = Ok BareNone <->
   exists r, auth_reply w = Reply r /\ status_code r <> 201).
Proof.
  split; [|split; [apply get_keystone_token_calls|]];
    rewrite get_keystone_token_eq; destruct (auth_reply w) as [msg|r].
  - now eexists.
  - destruct (status_code r =? 201); [|now eexists].
    destruct (user_id_of r); now eexists.
  - split; [discriminate | intros (r & H & _); discriminate].
  - destruct (status_code r =? 201) eqn:Hs.
    + apply Z.eqb_eq in Hs. split.
      * destruct (user_id_of r); discriminate.
      * intros (r' & H & Hn). inversion H; subst. contradiction.
    + apply Z.eqb_neq in Hs. split; [|reflexivity].
      intros _. now exists r.
Qed.

(** X7.  [create_ec2_credentials] never raises and makes exactly one
    request; it returns [None], or else the value that the body of a
    200 or 201 reply has under [credential]. *)
Theorem X7_create_never_raises (w : world) (token uid : json) :
  calls (fst (create_ec2_credentials w token uid)) = [create_request token uid] /\
  exists v,
    snd (create_ec2_credentials w token uid) = Ok v /\
    (v = JNull \/
     exists r, create_reply w = Reply r /\
               (status_code r = 200 \/ status_code r = 201) /\
               credential_of r = Some v).
Proof.
  split; [apply create_ec2_credentials_calls|].
  rewrite create_ec2_credentials_eq.
  destruct (create_reply w) as [msg|r]; [eexists; split; [reflexivity | now left]|].
  destruct (orb (status_code r =? 200) (status_code r =? 201)) eqn:Hs;
    [|eexists; split; [reflexivity | now left]].
  assert (Hs' : status_code r = 200 \/ status_code r = 201).
  { apply orb_true_iff in Hs. destruct Hs as [H|H]; apply Z.eqb_eq in H; auto. }
  destruct (json_doc r) as [msg|doc] eqn:Hd; [eexists; split; [reflexivity | now left]|].
  destruct doc; try (eexists; split; [reflexivity | now left]).
  unfold get, get_default.
  destruct (lookup "credential" items) as [x|] eqn:Hk.
  - exists x. split; [reflexivity|]. right. exists r.
    unfold credential_of. rewrite Hd. auto.
  - exists JNull. split; [reflexivity | now left].
Qed.

(** X8.  On a 200 reply whose body is a JSON object,
    [list_ec2_credentials] returns the value under [credentials] as it
    is, and the empty list when the key is missing; in both cases it
    prints nothing. *)
Theorem X8_listing_reads_credentials
        (w : world) (r : response) (kv : list (string * json)) (token uid : json) :
  list_reply w = Reply r ->
  status_code r = 200 ->
  json_doc r = inr (JObj kv) ->
  list_ec2_credentials w token uid =
  ([Call (list_request token uid)],
   Ok match lookup "credentials" kv with
      | Some creds => creds
      | None => JArr []
      end).
Proof.
  intros Hr Hs Hd. rewrite list_ec2_credentials_eq, Hr.
  apply Z.eqb_eq in Hs. rewrite Hs, Hd. cbn.
  now destruct (lookup "credentials" kv).
Qed.

(** A listing answered 200 with an empty object, by X8. *)
Lemma X8_listing_without_key :
  list_ec2_credentials creation_lists_nothing (JStr "gAAAAABtoken") (JStr "u1")
  = ([Call (list_request (JStr "gAAAAABtoken") (JStr "u1"))], Ok (JArr [])).
Proof.
  apply (X8_listing_reads_credentials creation_lists_nothing empty_object_response []);
    reflexivity.
Defined.

(** *** Every way through [main] *)

Lemma bind_lift_raise {A B : Type} (e : exn) (f : A -> M B) :
  bind (lift (Raise e)) f = ([], Raise e).
Proof. reflexivity. Qed.

Lemma bind_raised {A B : Type} (t : trace) (e : exn) (f : A -> M B) :
  bind (t, Raise e) f = (t, Raise e).
Proof. reflexivity. Qed.

(** The loop of lines 158-159 asks nothing and only prints. *)
Lemma listing_loop_questions (creds : list json) :
  questions (fst (for_each creds (fun cred =>
     bind (lift (get cred "access")) (fun access =>
       print ("  - Access Key: " ++ str access))))) = [].
Proof.
  apply (silent_for_each questions questions_app eq_refl). intros cred.
  destruct (get cred "access"); reflexivity.
Qed.

(** Lines 156-169, whatever was listed. *)
Lemma offer_existing_cases (w : world) (existing : json) :
  (truthy existing = false /\ offer_existing w existing = ([], Ok None)) \/
  (exists t e, offer_existing w existing = (t, Raise e) /\
               (questions t = [] \/ questions t = [question])) \/
  (exists t, offer_existing w existing = ((t ++ [Print ""; Input question])%list, Ok None) /\
             questions t = []) \/
  (exists t cred,
      offer_existing w existing
      = ((t ++ [Print ""; Input question] ++ reuse_report cred)%list, Ok (Some 0)) /\
      questions t = [] /\ first existing = Ok cred /\ is_record cred).
Proof.
  unfold offer_existing.
  destruct (truthy existing) eqn:Ht; [right | now left].
  destruct (len existing) as [n|e] eqn:Hl.
  2:{ left. exists [], e. rewrite bind_lift_raise. auto. }
  rewrite bind_lift_ok, bind_print.
  set (found := Print ("Found " ++ str_of_Z n ++ " existing EC2 credential(s):")).
  destruct (iter existing) as [creds|e] eqn:Hi.
  2:{ left. exists [found], e. rewrite bind_lift_raise. cbn [fst snd]. auto. }
  rewrite bind_lift_ok.
  pose proof (listing_loop_questions creds) as Hq.
  destruct (for_each creds _) as [tf [[]|e]]; cbn [fst] in Hq.
  2:{ left. exists (found :: tf), e. rewrite bind_raised. cbn [fst snd questions]. auto. }
  rewrite bind_done, bind_print, bind_input. cbn [fst snd].
  destruct (String.eqb (strip (lower (answer w))) "y"); cbn [negb].
  { right. left. exists (found :: tf). cbn [fst snd app questions].
    split; [reflexivity | exact Hq]. }
  rewrite bind_print.
  destruct (first existing) as [cred|e] eqn:Hf.
  2:{ left. rewrite bind_lift_raise. cbn [fst snd bind].
      exists (found :: tf ++ [Print ""; Input question;
                              Print (nl ++ "Using existing credentials:")])%list, e.
      split; [reflexivity|]. right.
      cbn [questions]. rewrite questions_app, Hq. reflexivity. }
  rewrite bind_lift_ok.
  destruct (get cred "access") as [a|e] eqn:Ha.
  2:{ left. rewrite bind_lift_raise. cbn [fst snd bind].
      exists (found :: tf ++ [Print ""; Input question;
                              Print (nl ++ "Using existing credentials:")])%list, e.
      split; [reflexivity|]. right.
      cbn [questions]. rewrite questions_app, Hq. reflexivity. }
  destruct cred as [| | | | | |kv]; try discriminate Ha.
  right. right. exists (found :: tf), (JObj kv).
  split; [|split; [exact Hq | split; [reflexivity | exact I]]].
  unfold get, get_default in *. unfold reuse_report, field.
  destruct (lookup "access" kv), (lookup "secret" kv); inversion Ha; subst; reflexivity.
Qed.

(** Lines 171-188, whatever was created. *)
Lemma create_new_credentials_cases (w : world) (token uid : json) :
  exists tc,
    calls tc = [create_request token uid] /\ questions tc = [] /\
    (create_new_credentials w token uid = ((tc ++ [Print failed_to_create])%list, Ok 1) \/
     (exists credential,
         is_record credential /\
         create_new_credentials w token uid
         = ((tc ++ created_report credential)%list, Ok 0)) \/
     (exists e, create_new_credentials w token uid = (tc, Raise e))).
Proof.
  destruct (create_ec2_credentials_returns w token uid) as [credential Hc].
  pose proof (create_ec2_credentials_calls w token uid) as Hcalls.
  pose proof (create_ec2_credentials_questions w token uid) as Hq.
  destruct (truthy credential) eqn:Ht.
  - destruct credential as [| | | | | |kv].
    7:{ exists (Print "Creating new EC2 credentials..."
                  :: fst (create_ec2_credentials w token uid)).
        split; [exact Hcalls | split; [exact Hq|]]. right. left.
        exists (JObj kv). split; [exact I|].
        apply create_new_credentials_record; [exact Hc|].
        now destruct kv. }
    all: try discriminate Ht.
    all: exists (Print "Creating new EC2 credentials..."
                   :: fst (create_ec2_credentials w token uid)
                   ++ [Print (nl ++ "✓ EC2 credentials created successfully!");
                       Print (times "=" 50);
                       Print (nl ++ "Add these to your AWS CLI credentials file:")])%list;
      (split; [cbn [calls]; rewrite calls_app, Hcalls; reflexivity|]);
      (split; [cbn [questions]; rewrite questions_app, Hq; reflexivity|]);
      right; right; eexists;
      unfold create_new_credentials;
      rewrite bind_print, (bind_ok _ _ _ Hc), Ht, !bind_print; reflexivity.
  - exists (Print "Creating new EC2 credentials..."
              :: fst (create_ec2_credentials w token uid)).
    split; [exact Hcalls | split; [exact Hq|]]. left.
    now apply create_new_credentials_failed with (credential := credential).
Qed.

Lemma authentication_cases (w : world) :
  (exists r, auth_reply w = Reply r /\ status_code r <> 201) \/
  ((forall r, auth_reply w = Reply r -> status_code r = 201) /\
   (forall t uid, authenticated w t uid -> t = "" \/ truthy uid = false)) \/
  (exists t uid, authenticated w t uid /\ t <> "" /\ truthy uid = true).
Proof.
  destruct (auth_reply w) as [msg|r] eqn:Hr.
  - right. left. split; [discriminate|].
    intros t uid (r & H & _). rewrite Hr in H. discriminate.
  - destruct (Z.eq_dec (status_code r) 201) as [Hs|Hs]; [|left; now exists r].
    right.
    assert (H201 : forall r', Reply r = Reply r' -> status_code r' = 201)
      by (intros r' H; now inversion H; subst).
    destruct (user_id_of r) as [uid|e] eqn:Hu.
    + destruct (subject_token r) as [t|] eqn:Ht.
      * destruct (string_dec t "") as [He|He];
          [|destruct (truthy uid) eqn:Hy].
        -- left. split; [exact H201|].
           intros t' uid' (r' & H & _ & Ht' & _). rewrite Hr in H.
           inversion H; subst r'. rewrite Ht in Ht'. inversion Ht'; subst. now left.
        -- right. exists t, uid. repeat split; try assumption.
           exists r. rewrite Hr. auto.
        -- left. split; [exact H201|].
           intros t' uid' (r' & H & _ & _ & Hu'). rewrite Hr in H.
           inversion H; subst r'. rewrite Hu in Hu'. inversion Hu'; subst. now right.
      * left. split; [exact H201|].
        intros t' uid' (r' & H & _ & Ht' & _). rewrite Hr in H.
        inversion H; subst r'. rewrite Ht in Ht'. discriminate.
    + left. split; [exact H201|].
      intros t' uid' (r' & H & _ & _ & Hu'). rewrite Hr in H.
      inversion H; subst r'. rewrite Hu in Hu'. discriminate.
Qed.

Lemma ends_with_app (a b suffix : trace) : ends_with b suffix -> ends_with (a ++ b)%list suffix.
Proof. intros [before ->]. exists (a ++ before)%list. now rewrite app_assoc. Qed.

Lemma ends_with_refl (a suffix : trace) : ends_with (a ++ suffix)%list suffix.
Proof. now exists a. Qed.

(** Lines 148-188: the requests, the questions and the end. *)
Lemma after_authentication_cases (w : world) (token uid : json) :
  exists t out,
    after_authentication w token uid = ((welcome uid ++ t)%list, out) /\
    (calls t = [list_request token uid] \/
     calls t = [list_request token uid; create_request token uid]) /\
    (questions t = [] \/ questions t = [question]) /\
    match out with
    | Ok code =>
        (code = 1 /\ ends_with t [Print failed_to_create]) \/
        (code = 0 /\
         exists cred, is_record cred /\
                      (ends_with t (reuse_report cred) \/
                       ends_with t (created_report cred)))
    | Raise _ => True
    end.
Proof.
  rewrite after_authentication_eq. cbv zeta.
  pose proof (list_ec2_credentials_calls w token uid) as Hlc.
  pose proof (list_ec2_credentials_questions w token uid) as Hlq.
  destruct (list_ec2_credentials_returns w token uid) as [existing ->].
  set (tl := fst (list_ec2_credentials w token uid)) in *.
  pose proof (offer_existing_calls w existing) as Hoc.
  destruct (create_new_credentials_cases w token uid)
    as (tc & Hcc & Hcq & Hcreate).
  assert (Hnone : forall to,
             calls to = [] -> (questions to = [] \/ questions to = [question]) ->
             exists t out,
               ((welcome uid ++ tl ++ to ++ fst (create_new_credentials w token uid))%list,
                snd (create_new_credentials w token uid))
               = ((welcome uid ++ t)%list, out) /\
               (calls t = [list_request token uid] \/
                calls t = [list_request token uid; create_request token uid]) /\
               (questions t = [] \/ questions t = [question]) /\
               match out with
               | Ok code =>
                   (code = 1 /\ ends_with t [Print failed_to_create]) \/
                   (code = 0 /\
                    exists cred, is_record cred /\
                                 (ends_with t (reuse_report cred) \/
                                  ends_with t (created_report cred)))
               | Raise _ => True
               end).
  { intros to Hc Hq.
    exists (tl ++ to ++ fst (create_new_credentials w token uid))%list,
      (snd (create_new_credentials w token uid)).
    split; [reflexivity|].
    destruct Hcreate as [H|[(cred & Hrec & H)|(e & H)]]; rewrite H; cbn [fst snd].
    - split; [right; rewrite !calls_app, Hlc, Hc, Hcc; reflexivity|].
      split; [rewrite !questions_app, Hlq, Hcq; cbn [questions app];
              rewrite app_nil_r; exact Hq|].
      left. split; [reflexivity|].
      do 2 apply ends_with_app. apply ends_with_refl.
    - split; [right; rewrite !calls_app, Hlc, Hc, Hcc; cbn [app];
              assert (E : calls (created_report cred) = []) by reflexivity;
              rewrite E; reflexivity|].
      split; [rewrite !questions_app, Hlq, Hcq; cbn [app];
              assert (E : questions (created_report cred) = []) by reflexivity;
              rewrite E, app_nil_r; exact Hq|].
      right. split; [reflexivity|]. exists cred. split; [exact Hrec|]. right.
      do 2 apply ends_with_app. apply ends_with_refl.
    - split; [right; rewrite !calls_app, Hlc, Hc, Hcc; reflexivity|].
      split; [rewrite !questions_app, Hlq, Hcq, app_nil_r; exact Hq | exact I]. }
  destruct (offer_existing_cases w existing)
    as [[_ Ho]|[(to & e & Ho & Hq)|[(to & Ho & Hq)|(to & cred & Ho & Hq & _ & Hrec)]]];
    rewrite Ho in Hoc |- *; cbn [fst snd] in Hoc |- *.
  - apply Hnone; [reflexivity | now left].
  - exists (tl ++ to)%list, (Raise e). split; [reflexivity|].
    split; [left; rewrite calls_app, Hlc, Hoc; reflexivity|].
    split; [rewrite questions_app, Hlq; exact Hq | exact I].
  - apply Hnone; [exact Hoc|].
    right. rewrite questions_app, Hq. reflexivity.
  - exists (tl ++ to ++ [Print ""; Input question] ++ reuse_report cred)%list, (Ok 0).
    split; [reflexivity|].
    split; [left; rewrite calls_app, Hlc, Hoc; reflexivity|].
    split; [right; rewrite !questions_app, Hlq, Hq; reflexivity|].
    right. split; [reflexivity|]. exists cred. split; [exact Hrec|]. left.
    do 3 apply ends_with_app. apply ends_with_refl with (a := []).
Qed.

(** The branch of lines 144-146, with what was shown before it. *)
Lemma run_not_authenticated_shown (w : world) :
  (forall r, auth_reply w = Reply r -> status_code r = 201) ->
  (forall t uid, authenticated w t uid -> t = "" \/ truthy uid = false) ->
  exists shown,
    run w = ((opening ++ Call (auth_request (password w)) :: shown
                ++ [Print failed_to_authenticate])%list, Ok 1) /\
    calls shown = [] /\ questions shown = [].
Proof.
  intros H201 Hno. rewrite main_eq, get_keystone_token_eq.
  destruct (auth_reply w) as [msg|r] eqn:Hr.
  - eexists [_]. repeat split.
  - rewrite (proj2 (Z.eqb_eq _ _) (H201 r eq_refl)).
    destruct (user_id_of r) as [uid|e] eqn:Hu.
    + cbn [snd fst].
      destruct (subject_token r) as [t|] eqn:Ht; cbn [of_option truthy].
      * destruct (Hno t uid) as [->|Hf].
        { exists r. auto using H201. }
        { exists []. repeat split. }
        { rewrite Hf. rewrite orb_true_r. exists []. repeat split. }
      * exists []. repeat split.
    + eexists [_]. repeat split.
Qed.

(** Every run, from the first line to the last. *)
Lemma run_cases (w : world) :
  (exists r, auth_reply w = Reply r /\ status_code r <> 201 /\
             run w =
             ((opening ++ [Call (auth_request (password w));
                           Print ("Error authenticating: " ++ str_of_Z (status_code r));
                           Print (text r)])%list,
              Raise (TypeError "cannot unpack non-iterable NoneType object"))) \/
  (exists shown,
      run w = ((opening ++ Call (auth_request (password w)) :: shown
                  ++ [Print failed_to_authenticate])%list, Ok 1) /\
      calls shown = [] /\ questions shown = []) \/
  (exists t uid rest out,
      authenticated w t uid /\ t <> "" /\ truthy uid = true /\
      run w = ((opening ++ Call (auth_request (password w)) :: welcome uid ++ rest)%list,
               out) /\
      (calls rest = [list_request (JStr t) uid] \/
       calls rest = [list_request (JStr t) uid; create_request (JStr t) uid]) /\
      (questions rest = [] \/ questions rest = [question]) /\
      match out with
      | Ok code =>
          (code = 1 /\ ends_with rest [Print failed_to_create]) \/
          (code = 0 /\
           exists cred, is_record cred /\
                        (ends_with rest (reuse_report cred) \/
                         ends_with rest (created_report cred)))
      | Raise _ => True
      end).
Proof.
  destruct (authentication_cases w) as [(r & Hr & Hs)|[[H201 Hno]|(t & uid & Ha & Hne & Hu)]].
  - left. exists r. repeat split; try assumption. now apply run_rejected.
  - right. left. now apply run_not_authenticated_shown.
  - right. right.
    destruct (after_authentication_cases w (JStr t) uid) as (rest & out & Hafter & H).
    exists t, uid, rest, out. repeat split; try assumption; try apply H.
    now rewrite (run_authenticated w t uid Ha Hne Hu), Hafter.
Qed.

(** X9.  When [main] returns, it returns 0 or 1; when it returns 1 the
    last line printed is one of the two failure messages,
    [Failed to authenticate. Please check your password.] or
    [Failed to create EC2 credentials.]. *)
Theorem X9_main_returns_0_or_1 (w : world) (code : Z) :
  snd (run w) = Ok code ->
  (code = 0 \/ code = 1) /\
  (code = 1 ->
   last_line (fst (run w)) = failed_to_authenticate \/
   last_line (fst (run w)) = failed_to_create).
Proof.
  destruct (run_cases w)
    as [(r & _ & _ & ->)|[(shown & -> & _)|(t & uid & rest & out & _ & _ & _ & -> & _ & _ & H)]];
    cbn [fst snd]; intros Hc.
  - discriminate.
  - inversion Hc; subst. split; [now right|]. intros _. left.
    rewrite app_comm_cons, app_assoc. apply last_line_snoc.
  - subst out. destruct H as [[-> [before ->]]|[-> _]].
    + split; [now right|]. intros _. right.
      rewrite app_comm_cons, !app_assoc. apply last_line_snoc.
    + split; [now left | discriminate].
Qed.

(** A creation refused, by X9. *)
Lemma X9_creation_forbidden_code :
  (1 = 0 \/ 1 = 1) /\
  (1 = 1 ->
   last_line (fst (run creation_forbidden)) = failed_to_authenticate \/
   last_line (fst (run creation_forbidden)) = failed_to_create).
Proof. exact (X9_main_returns_0_or_1 creation_forbidden 1 eq_refl). Defined.

(** X10.  When [main] returns 0, the run ends with the report of a
    credential record, reused or created: its lines [Access Key ID:]
    and [Secret Access Key:] are among those printed. *)
Theorem X10_success_prints_a_credential (w : world) :
  snd (run w) = Ok 0 ->
  exists record,
    is_record record /\
    (ends_with (fst (run w)) (reuse_report record) \/
     ends_with (fst (run w)) (created_report record)) /\
    (In ("Access Key ID: " ++ str (field record "access")) (printed (fst (run w))) \/
     In (nl ++ "Access Key ID: " ++ str (field record "access")) (printed (fst (run w)))) /\
    In ("Secret Access Key: " ++ str (field record "secret")) (printed (fst (run w))).
Proof.
  destruct (run_cases w)
    as [(r & _ & _ & ->)|[(shown & -> & _)|(t & uid & rest & out & _ & _ & _ & -> & _ & _ & H)]];
    cbn [fst snd]; intros Hc; try discriminate.
  subst out. destruct H as [[H _]|[_ (record & Hrec & H)]]; [discriminate|].
  exists record. split; [exact Hrec|].
  assert (Hin : forall suffix line,
             ends_with rest suffix -> In line (printed suffix) ->
             In line (printed (opening ++ Call (auth_request (password w))
                                 :: welcome uid ++ rest)%list)).
  { intros suffix line [before ->] Hl.
    rewrite printed_app. apply in_or_app. right. cbn [printed].
    rewrite !printed_app. apply in_or_app. right. apply in_or_app. now right. }
  destruct H as [H|H].
  - split; [left; rewrite app_comm_cons; do 2 apply ends_with_app; exact H|].
    split; [left|]; apply (Hin _ _ H); cbn; tauto.
  - split; [right; rewrite app_comm_cons; do 2 apply ends_with_app; exact H|].
    split; [right|]; apply (Hin _ _ H); cbn; tauto.
Qed.

(** Scenario B, by X10. *)
Lemma X10_scenario_B_report :
  exists record,
    is_record record /\
    (ends_with (fst (run scenario_B)) (reuse_report record) \/
     ends_with (fst (run scenario_B)) (created_report record)) /\
    (In ("Access Key ID: " ++ str (field record "access")) (printed (fst (run scenario_B))) \/
     In (nl ++ "Access Key ID: " ++ str (field record "access"))
        (printed (fst (run scenario_B)))) /\
    In ("Secret Access Key: " ++ str (field record "secret")) (printed (fst (run scenario_B))).
Proof. exact (X10_success_prints_a_credential scenario_B eq_refl). Defined.

(** X11.  The requests of a run are the authentication request alone,
    or that request followed by the listing, or by the listing and the
    creation, in this order.  A listing or a creation is requested only
    after a 201 reply that gave a token that is not empty and a subject
    id that counts as true; both requests carry that token in
    [X-Auth-Token] and that id in their URL. *)
Theorem X11_requests_in_order (w : world) :
  calls (fst (run w)) = [auth_request (password w)] \/
  exists t uid,
    authenticated w t uid /\ t <> "" /\ truthy uid = true /\
    (calls (fst (run w)) = [auth_request (password w); list_request (JStr t) uid] \/
     calls (fst (run w))
     = [auth_request (password w); list_request (JStr t) uid;
        create_request (JStr t) uid]).
Proof.
  destruct (run_cases w)
    as [(r & _ & _ & ->)|[(shown & -> & Hc & _)
                         |(t & uid & rest & out & Ha & Hne & Hu & -> & Hc & _)]];
    cbn [fst].
  - left. now rewrite calls_app.
  - left. rewrite calls_app. cbn [calls opening app]. now rewrite calls_app, Hc.
  - right. exists t, uid. repeat split; try assumption.
    rewrite calls_app. cbn [calls opening app]. rewrite calls_app. cbn [calls welcome app].
    destruct Hc as [-> | ->]; [now left | now right].
Qed.

(** X12.  A run puts at most one question to the operator, the one of
    line 161. *)
Theorem X12_at_most_one_question (w : world) :
  questions (fst (run w)) = [] \/ questions (fst (run w)) = [question].
Proof.
  destruct (run_cases w)
    as [(r & _ & _ & ->)|[(shown & -> & _ & Hq)
                         |(t & uid & rest & out & _ & _ & _ & -> & _ & Hq & _)]];
    cbn [fst].
  - left. now rewrite questions_app.
  - left. rewrite questions_app. cbn [questions opening app].
    now rewrite questions_app, Hq.
  - rewrite questions_app. cbn [questions opening app].
    rewrite questions_app. cbn [questions welcome app]. exact Hq.
Qed.

(** *** Replies of the expected shape *)





(** *** The operator's reply *)

Lemma lower_ascii_y (c : ascii) :
  lower_ascii c = "y"%char <-> c = "y"%char \/ c = "Y"%char.
Proof.
  split.
  - destruct c as [[] [] [] [] [] [] [] []]; cbv; intros H;
      first [discriminate H | now left | now right].
  - intros [-> | ->]; reflexivity.
Qed.

Lemma lower_is_y (ch : string) : lower ch = "y" <-> ch = "y" \/ ch = "Y".
Proof.
  split.
  - destruct ch as [|c [|d rest]]; cbn [lower]; intros H; try discriminate.
    inversion H as [Hc]. apply lower_ascii_y in Hc. destruct Hc as [-> | ->]; auto.
  - intros [-> | ->]; reflexivity.
Qed.

Lemma is_continuation_lower (c : ascii) :
  is_continuation (lower_ascii c) = is_continuation c.
Proof. destruct c as [[] [] [] [] [] [] [] []]; reflexivity. Qed.

Lemma continues_lower (s : string) : continues (lower s) = continues s.
Proof. destruct s; [reflexivity | apply is_continuation_lower]. Qed.

(** Lowering the text lowers each of its characters. *)
Lemma characters_lower (s : string) : characters (lower s) = map lower (characters s).
Proof.
  induction s as [|c s IH]; [reflexivity|].
  cbn [lower characters]. rewrite continues_lower, IH.
  destruct (continues s); [|reflexivity].
  destruct (characters s); reflexivity.
Qed.

Lemma lower_ascii_eqb (c d : ascii) :
  no_letter d = true -> Ascii.eqb (lower_ascii c) d = Ascii.eqb c d.
Proof.
  intros H.
  destruct c as [[] [] [] [] [] [] [] []]; try reflexivity;
    destruct d as [[] [] [] [] [] [] [] []]; try reflexivity; discriminate H.
Qed.

Lemma lower_eqb (ch w : string) :
  letterless w = true -> String.eqb (lower ch) w = String.eqb ch w.
Proof.
  revert w. induction ch as [|c ch IH]; intros [|d w] H; try reflexivity.
  cbn [letterless] in H. apply andb_true_iff in H as [Hd Hw].
  cbn [lower String.eqb]. now rewrite (lower_ascii_eqb c d Hd), (IH w Hw).
Qed.

(** Lowering a character neither makes nor unmakes white space. *)
Lemma is_space_lower (ch : string) : is_space (lower ch) = is_space ch.
Proof.
  unfold is_space.
  assert (H : forallb letterless white_space = true) by reflexivity.
  induction white_space as [|w l IH]; [reflexivity|].
  cbn [forallb] in H. apply andb_true_iff in H as [Hw Hl].
  cbn [existsb]. now rewrite (lower_eqb ch w Hw), (IH Hl).
Qed.

Lemma all_space_lower (l : list string) : all_space (map lower l) = all_space l.
Proof.
  induction l as [|ch l IH]; [reflexivity|].
  cbn [map all_space forallb]. unfold all_space in IH. now rewrite is_space_lower, IH.
Qed.

Lemma drop_spaces_split (l : list string) :
  exists a, l = (a ++ drop_spaces l)%list /\ all_space a = true.
Proof.
  induction l as [|ch l (a & Hl & Ha)]; [now exists []|].
  cbn [drop_spaces]. destruct (is_space ch) eqn:Hc.
  - exists (ch :: a). cbn [app all_space forallb]. rewrite Hc. split; [now rewrite <- Hl | exact Ha].
  - now exists [].
Qed.

Lemma drop_spaces_spaces (a l : list string) :
  all_space a = true -> drop_spaces (a ++ l) = drop_spaces l.
Proof.
  induction a as [|ch a IH]; [reflexivity|].
  cbn [all_space forallb app drop_spaces]. intros H.
  apply andb_true_iff in H as [-> Ha]. now apply IH.
Qed.

Lemma all_space_rev (l : list string) : all_space (rev l) = all_space l.
Proof.
  unfold all_space. induction l as [|ch l IH]; [reflexivity|].
  cbn [rev forallb]. rewrite forallb_app, IH. cbn [forallb].
  now rewrite andb_true_r, andb_comm.
Qed.

(** What [trim] leaves stands between white space. *)
Lemma trim_split (l : list string) :
  exists a b, l = (a ++ trim l ++ b)%list /\ all_space a = true /\ all_space b = true.
Proof.
  unfold trim.
  destruct (drop_spaces_split l) as (a & Hl & Ha).
  destruct (drop_spaces_split (rev (drop_spaces l))) as (b & Hr & Hb).
  exists a, (rev b). split; [|split; [exact Ha | now rewrite all_space_rev]].
  rewrite Hl at 1. f_equal.
  rewrite <- (rev_involutive (drop_spaces l)), Hr at 1.
  now rewrite rev_app_distr.
Qed.

(** One character that is no white space, between white space. *)
Lemma trim_one (a b : list string) (ch : string) :
  all_space a = true -> all_space b = true -> is_space ch = false ->
  trim (a ++ ch :: b) = [ch].
Proof.
  intros Ha Hb Hc. unfold trim.
  rewrite (drop_spaces_spaces a _ Ha). cbn [drop_spaces]. rewrite Hc.
  cbn [rev]. rewrite drop_spaces_spaces by now rewrite all_space_rev.
  cbn [drop_spaces]. now rewrite Hc.
Qed.

Lemma characters_not_empty (s : string) : Forall (fun ch => ch <> "") (characters s).
Proof.
  induction s as [|c s IH]; [constructor|].
  cbn [characters]. destruct (continues s).
  - destruct (characters s) as [|ch rest]; constructor; try discriminate.
    + constructor.
    + now inversion IH.
  - constructor; [discriminate | exact IH].
Qed.

Lemma text_of_one (l : list string) (c : ascii) :
  Forall (fun ch => ch <> "") l ->
  text_of l = String c "" -> l = [String c ""].
Proof.
  intros Hl H. destruct l as [|ch rest]; [discriminate|].
  inversion Hl as [|? ? Hch Hrest]; subst.
  destruct ch as [|d ch]; [contradiction|].
  cbn in H. inversion H as [[Hd Ht]].
  destruct ch; [|discriminate].
  destruct rest as [|ch' rest]; [reflexivity|].
  inversion Hrest as [|? ? Hch' _]; subst.
  destruct ch'; [contradiction | discriminate].
Qed.

Lemma lowered_not_empty (l : list string) :
  Forall (fun ch => ch <> "") l -> Forall (fun ch => ch <> "") (map lower l).
Proof.
  induction 1 as [|ch l Hch _ IH]; constructor; [|exact IH].
  destruct ch; [contradiction | discriminate].
Qed.

(** X14.  The reply to the question counts as yes exactly when its
    characters are a single [y] or [Y] with nothing but white space
    before and after it, where white space is every character that
    [str.strip] removes, those outside ASCII included; every other
    reply ([yes], [n], the empty line) declines. *)
Theorem X14_affirmative_iff (typed : string) :
  affirmative typed = true <->
  exists before after c,
    characters typed = (before ++ String c "" :: after)%list /\
    all_space before = true /\ all_space after = true /\
    (c = "y"%char \/ c = "Y"%char).
Proof.
  unfold affirmative, strip. rewrite String.eqb_eq, characters_lower. split.
  - intros H.
    destruct (trim_split (map lower (characters typed))) as (a & b & Hsplit & Ha & Hb).
    assert (Hne : Forall (fun ch => ch <> "") (trim (map lower (characters typed)))).
    { pose proof (lowered_not_empty _ (characters_not_empty typed)) as Hall.
      rewrite Hsplit in Hall.
      apply Forall_app in Hall as [_ Hall]. now apply Forall_app in Hall as [Hall _]. }
    rewrite (text_of_one _ _ Hne H) in Hsplit.
    apply map_eq_app in Hsplit as (before & rest & Htyped & Hbefore & Hrest).
    cbn [app] in Hrest.
    apply map_eq_cons in Hrest as (ch & after & -> & Hch & Hafter).
    apply lower_is_y in Hch.
    exists before, after.
    subst a b. rewrite all_space_lower in Ha, Hb.
    destruct Hch as [-> | ->]; [exists "y"%char | exists "Y"%char]; auto.
  - intros (before & after & c & -> & Ha & Hb & Hc).
    rewrite map_app. cbn [map lower].
    apply lower_ascii_y in Hc. rewrite Hc, trim_one; try reflexivity;
      now rewrite all_space_lower.
Qed.

Example affirmative_no_break_space : affirmative no_break_space_y = true.
Proof. reflexivity. Qed.

(** A reply with white space outside ASCII is a yes all the same: the
    creation request is made, and here refused. *)
Example no_break_space_reply_creates :
  calls (fst (run no_break_yes))
  = [auth_request "hunter2";
     list_request (JStr "gAAAAABtoken") (JStr "u1");
     create_request (JStr "gAAAAABtoken") (JStr "u1")] /\
  snd (run no_break_yes) = Ok 1.
Proof. split; reflexivity. Qed.

(** *** Values that are missing or count as false *)

(** X15.  A creation answered 200 or 201 whose [credential] counts as
    false (null, an empty object, an empty string, zero) is a failure:
    [create_ec2_credentials] prints nothing, and the run ends with
    [Failed to create EC2 credentials.] right after the request and
    returns 1. *)
Theorem X15_falsy_credential_fails (w : world) (r : response) (credential : json) :
  creation_attempted w ->
  create_reply w = Reply r ->
  status_code r = 200 \/ status_code r = 201 ->
  credential_of r = Some credential ->
  truthy credential = false ->
  (exists token uid,
      ends_with (fst (run w))
                [Print "Creating new EC2 credentials...";
                 Call (create_request token uid);
                 Print failed_to_create]) /\
  snd (run w) = Ok 1.
Proof.
  intros Hc Hr Hs Hk Ht.
  destruct (creation_attempted_inv w Hc) as (pre & token & uid & Hrun & _).
  assert (Hcreate : create_ec2_credentials w token uid
                    = ([Call (create_request token uid)], Ok credential)).
  { rewrite create_ec2_credentials_eq, Hr.
    replace (orb (status_code r =? 200) (status_code r =? 201)) with true
      by (destruct Hs as [-> | ->]; reflexivity).
    unfold credential_of in Hk.
    destruct (json_doc r) as [msg|doc]; [discriminate|].
    destruct doc; try discriminate.
    unfold get, get_default. now rewrite Hk. }
  rewrite Hrun, (create_new_credentials_failed w token uid credential);
    [|now rewrite Hcreate|exact Ht].
  rewrite Hcreate. cbn [fst snd]. split; [|reflexivity].
  exists token, uid. apply ends_with_refl.
Qed.

(** A creation answered 201 with an empty object as the credential, by X15. *)
Lemma X15_empty_credential :
  (exists token uid,
      ends_with (fst (run empty_credential_created))
                [Print "Creating new EC2 credentials...";
                 Call (create_request token uid);
                 Print failed_to_create]) /\
  snd (run empty_credential_created) = Ok 1.
Proof.
  apply (X15_falsy_credential_fails empty_credential_created empty_credential_response
           (JObj [])).
  - exists (JStr "gAAAAABtoken"), (JStr "u1"). vm_compute. tauto.
  - reflexivity.
  - right. reflexivity.
  - reflexivity.
  - reflexivity.
Defined.

(** X16.  When the operator declines and the first record listed has no
    [access] or no [secret] key, the run prints [None] in its place
    ([Access Key ID: None], [Secret Access Key: None]) and still
    returns 0. *)
Theorem X16_reused_record_without_keys
        (w : world) (t : string) (uid : json)
        (kv : list (string * json)) (more : list json) :
  authenticated w t uid ->
  t <> "" ->
  truthy uid = true ->
  snd (list_ec2_credentials w (JStr t) uid) = Ok (JArr (JObj kv :: more)) ->
  Forall is_record more ->
  affirmative (answer w) = false ->
  (lookup "access" kv = None -> In "Access Key ID: None" (printed (fst (run w)))) /\
  (lookup "secret" kv = None -> In "Secret Access Key: None" (printed (fst (run w)))) /\
  snd (run w) = Ok 0.
Proof.
  intros Ha Hne Hu Hl Hmore Hno.
  rewrite (run_authenticated w t uid Ha Hne Hu).
  rewrite (after_authentication_records w (JStr t) uid (JObj kv) more Hl);
    [|now constructor].
  rewrite Hno. cbn [fst snd].
  assert (Hin : forall line, In line (printed (reuse_report (JObj kv))) ->
                In line (printed
                           (opening ++ Call (auth_request (password w))
                              :: welcome uid ++ fst (list_ec2_credentials w (JStr t) uid)
                              ++ (found_report (JObj kv :: more) ++ [Print ""; Input question])
                              ++ reuse_report (JObj kv))%list)).
  { intros line H. rewrite printed_app. apply in_or_app. right. cbn [printed].
    rewrite !printed_app. do 3 (apply in_or_app; right). exact H. }
  split; [|split; [|reflexivity]]; intros Hk; apply Hin;
    unfold reuse_report, field; rewrite Hk; cbn; tauto.
Qed.

(** A record without a secret, reused, by X16. *)
Lemma X16_secret_missing :
  In "Secret Access Key: None" (printed (fst (run secret_missing))) /\
  snd (run secret_missing) = Ok 0.
Proof.
  destruct (X16_reused_record_without_keys secret_missing "gAAAAABtoken" (JStr "u1")
              [("access", JStr "AK3")] []) as (_ & H & H0).
  - eexists. repeat split.
  - discriminate.
  - reflexivity.
  - reflexivity.
  - constructor.
  - reflexivity.
  - exact (conj (H eq_refl) H0).
Defined.

(** X17.  When the record created (an object that is not empty) has no
    [access] or no [secret] key, the run reports success all the same:
    it prints [None] in the place of the value and returns 0. *)
Theorem X17_created_record_without_keys
        (w : world) (r : response) (kv : list (string * json)) :
  creation_attempted w ->
  create_reply w = Reply r ->
  status_code r = 200 \/ status_code r = 201 ->
  credential_of r = Some (JObj kv) ->
  kv <> [] ->
  (lookup "access" kv = None ->
   In (nl ++ "Access Key ID: None") (printed (fst (run w)))) /\
  (lookup "secret" kv = None ->
   In "Secret Access Key: None" (printed (fst (run w)))) /\
  snd (run w) = Ok 0.
Proof.
  intros Hc Hr Hs Hk Hkv.
  destruct (creation_attempted_inv w Hc) as (pre & token & uid & Hrun & _).
  assert (Hret : snd (create_ec2_credentials w token uid) = Ok (JObj kv)).
  { rewrite create_ec2_credentials_eq, Hr.
    replace (orb (status_code r =? 200) (status_code r =? 201)) with true
      by (destruct Hs as [-> | ->]; reflexivity).
    unfold credential_of in Hk.
    destruct (json_doc r) as [msg|doc]; [discriminate|].
    destruct doc; try discriminate.
    unfold get, get_default. now rewrite Hk. }
  rewrite Hrun, (create_new_credentials_record w token uid kv Hret Hkv).
  cbn [fst snd].
  set (T := (pre ++ Print "Creating new EC2 credentials..."
               :: fst (create_ec2_credentials w token uid)
               ++ created_report (JObj kv))%list).
  assert (Hin : forall line, In line (printed (created_report (JObj kv))) ->
                             In line (printed T)).
  { intros line H. unfold T. rewrite printed_app. apply in_or_app. right.
    cbn [printed]. right. rewrite printed_app. apply in_or_app. now right. }
  split; [|split; [|reflexivity]]; intros Hm; apply Hin;
    unfold created_report, field; rewrite Hm; cbn; tauto.
Qed.

(** A record created without a secret, by X17. *)
Lemma X17_secret_not_created :
  In "Secret Access Key: None" (printed (fst (run secret_not_created))) /\
  snd (run secret_not_created) = Ok 0.
Proof.
  destruct (X17_created_record_without_keys secret_not_created secretless_response
              [("access", JStr "AK3")]) as (_ & H & H0).
  - exists (JStr "gAAAAABtoken"), (JStr "u1"). vm_compute. tauto.
  - reflexivity.
  - left. reflexivity.
  - reflexivity.
  - discriminate.
  - exact (conj (H eq_refl) H0).
Defined.

(** *** The records listed *)

Lemma printed_found_report (records : list json) :
  printed (found_report records) =
  ("Found " ++ str_of_Z (Z.of_nat (List.length records)) ++ " existing EC2 credential(s):")
    :: map (fun record => "  - Access Key: " ++ str (field record "access")) records.
Proof.
  unfold found_report. cbn [printed]. f_equal.
  induction records as [|record records IH]; [reflexivity|].
  cbn [map printed]. now rewrite IH.
Qed.

(** X18.  When the listing gives records, the run prints
    [Found <n> existing EC2 credential(s):] with [n] their number, then
    one line [  - Access Key: <access>] for each record, in the order
    of the listing, then an empty line. *)
Theorem X18_listing_report
        (w : world) (t : string) (uid cred : json) (more : list json) :
  authenticated w t uid ->
  t <> "" ->
  truthy uid = true ->
  snd (list_ec2_credentials w (JStr t) uid) = Ok (JArr (cred :: more)) ->
  Forall is_record (cred :: more) ->
  exists before after,
    printed (fst (run w)) =
    (before
       ++ ("Found " ++ str_of_Z (Z.of_nat (List.length (cred :: more)))
             ++ " existing EC2 credential(s):")%string
       :: map (fun record => ("  - Access Key: " ++ str (field record "access"))%string)
              (cred :: more)
       ++ ""%string :: after)%list.
Proof.
  intros Ha Hne Hu Hl Hr.
  rewrite (run_authenticated w t uid Ha Hne Hu).
  rewrite (after_authentication_records w (JStr t) uid cred more Hl Hr).
  exists (printed (opening ++ Call (auth_request (password w))
                     :: welcome uid ++ fst (list_ec2_credentials w (JStr t) uid))%list).
  destruct (affirmative (answer w)); cbn [fst].
  - exists (printed (fst (create_new_credentials w (JStr t) uid))).
    rewrite !printed_app. cbn [printed]. rewrite !printed_app, printed_found_report.
    cbn [printed]. rewrite <- !app_assoc. reflexivity.
  - exists (printed (reuse_report cred)).
    rewrite !printed_app. cbn [printed]. rewrite !printed_app, printed_found_report.
    cbn [printed]. rewrite <- !app_assoc. reflexivity.
Qed.

(** Scenario B, by X18. *)
Lemma X18_scenario_B_listing :
  exists before after,
    printed (fst (run scenario_B)) =
    (before
       ++ ("Found " ++ str_of_Z (Z.of_nat (List.length [record_AK1]))
             ++ " existing EC2 credential(s):")%string
       :: map (fun record => ("  - Access Key: " ++ str (field record "access"))%string)
              [record_AK1]
       ++ ""%string :: after)%list.
Proof.
  apply (X18_listing_report scenario_B "gAAAAABtoken" (JStr "u1") record_AK1 []).
  - eexists. repeat split.
  - discriminate.
  - reflexivity.
  - reflexivity.
  - repeat constructor.
Defined.

Lemma list_ec2_credentials_records
      (w : world) (records : list json) (token uid : json) :
  lists_records (list_reply w) records ->
  list_ec2_credentials w token uid = ([Call (list_request token uid)], Ok (JArr records)).
Proof.
  intros (r & kv & Hr & Hs & Hd & Hk & _).
  rewrite list_ec2_credentials_eq, Hr.
  apply Z.eqb_eq in Hs. rewrite Hs, Hd. cbn. now rewrite Hk.
Qed.

(** Two runs that agree on the password and the authentication print
    the same and end the same if they do so after the authentication. *)
Lemma run_congruence (w1 w2 : world) :
  password w1 = password w2 ->
  auth_reply w1 = auth_reply w2 ->
  (forall token uid,
      printed (fst (after_authentication w1 token uid))
      = printed (fst (after_authentication w2 token uid)) /\
      snd (after_authentication w1 token uid) = snd (after_authentication w2 token uid)) ->
  printed (fst (run w1)) = printed (fst (run w2)) /\ snd (run w1) = snd (run w2).
Proof.
  intros Hp Ha Hafter. rewrite !main_eq, !get_keystone_token_eq, Hp, Ha. cbv zeta.
  destruct (auth_reply w2) as [msg|r]; [now split|].
  destruct (status_code r =? 201); [|now split].
  destruct (user_id_of r) as [uid|e]; [|now split]. cbn [fst snd].
  destruct (orb (negb (truthy (of_option (subject_token r)))) (negb (truthy uid)));
    [now split|].
  destruct (Hafter (of_option (subject_token r)) uid) as [H1 H2].
  cbn [fst snd]. split; [|exact H2].
  rewrite !printed_app. cbn [printed]. now rewrite H1.
Qed.

(** X19.  Of the records listed, only the first one's secret can reach
    the console: two runs whose 200 listings have the same first
    record, and further records with the same access keys in the same
    order, print the same lines and end the same way, whatever the
    other fields of the further records are. *)
Theorem X19_other_secrets_are_not_printed
        (w : world) (rp1 rp2 : reply) (cred : json) (more1 more2 : list json) :
  lists_records rp1 (cred :: more1) ->
  lists_records rp2 (cred :: more2) ->
  access_keys more1 = access_keys more2 ->
  printed (fst (run (with_list_reply w rp1))) = printed (fst (run (with_list_reply w rp2))) /\
  snd (run (with_list_reply w rp1)) = snd (run (with_list_reply w rp2)).
Proof.
  intros H1 H2 Hk.
  apply run_congruence; [reflexivity | reflexivity |].
  intros token uid.
  assert (Hr1 : Forall is_record (cred :: more1))
    by (destruct H1 as (? & ? & _ & _ & _ & _ & H); exact H).
  assert (Hr2 : Forall is_record (cred :: more2))
    by (destruct H2 as (? & ? & _ & _ & _ & _ & H); exact H).
  pose proof (list_ec2_credentials_records (with_list_reply w rp1) _ token uid H1) as Hl1.
  pose proof (list_ec2_credentials_records (with_list_reply w rp2) _ token uid H2) as Hl2.
  rewrite (after_authentication_records (with_list_reply w rp1) token uid cred more1);
    [|now rewrite Hl1|exact Hr1].
  rewrite (after_authentication_records (with_list_reply w rp2) token uid cred more2);
    [|now rewrite Hl2|exact Hr2].
  rewrite Hl1, Hl2.
  change (answer (with_list_reply w rp1)) with (answer w).
  change (answer (with_list_reply w rp2)) with (answer w).
  change (create_new_credentials (with_list_reply w rp1) token uid)
    with (create_new_credentials w token uid).
  change (create_new_credentials (with_list_reply w rp2) token uid)
    with (create_new_credentials w token uid).
  assert (Hfound : printed (found_report (cred :: more1))
                   = printed (found_report (cred :: more2))).
  { rewrite !printed_found_report. unfold access_keys in Hk.
    assert (Hlen : List.length more1 = List.length more2).
    { rewrite <- (length_map (fun record => field record "access") more1), Hk.
      apply length_map. }
    cbn [List.length map]. rewrite Hlen. do 2 f_equal.
    rewrite <- (map_map (fun record => field record "access")
                        (fun access => "  - Access Key: " ++ str access) more1).
    rewrite <- (map_map (fun record => field record "access")
                        (fun access => "  - Access Key: " ++ str access) more2).
    now rewrite Hk. }
  destruct (affirmative (answer w)); cbn [fst snd]; (split; [|reflexivity]);
    rewrite !printed_app, Hfound; reflexivity.
Qed.

(** Two listings that differ in the second record's secret, by X19. *)
Lemma X19_second_secret_changed :
  printed (fst (run (with_list_reply scenario_B (Reply (two_records_response record_AK4)))))
  = printed (fst (run (with_list_reply scenario_B
                         (Reply (two_records_response record_AK4_other_secret))))) /\
  snd (run (with_list_reply scenario_B (Reply (two_records_response record_AK4))))
  = snd (run (with_list_reply scenario_B
                (Reply (two_records_response record_AK4_other_secret)))).
Proof.
  apply (X19_other_secrets_are_not_printed scenario_B _ _ record_AK1
           [record_AK4] [record_AK4_other_secret]).
  - eexists _, _. repeat split; repeat constructor.
  - eexists _, _. repeat split; repeat constructor.
  - reflexivity.
Defined.

(** *** Authentication failures that [main] handles *)

(** X20.  An exception during the authentication (the transport fails,
    or the body of a 201 reply is not JSON or lacks [token.user.id]) is
    printed as [Error during authentication: <message>]; [main] then
    prints the authentication failure and returns 1, having made the
    one request. *)
Theorem X20_authentication_exception_is_reported (w : world) :
  (forall msg,
      auth_reply w = NoReply msg ->
      run w = ((opening ++ [Call (auth_request (password w));
                            Print ("Error during authentication: " ++ msg);
                            Print failed_to_authenticate])%list, Ok 1)) /\
  (forall r e,
      auth_reply w = Reply r -> status_code r = 201 -> user_id_of r = Raise e ->
      run w = ((opening ++ [Call (auth_request (password w));
                            Print ("Error during authentication: " ++ str_exn e);
                            Print failed_to_authenticate])%list, Ok 1)).
Proof.
  split.
  - intros msg Hr. rewrite main_eq, get_keystone_token_eq, Hr. reflexivity.
  - intros r e Hr Hs Hu. rewrite main_eq, get_keystone_token_eq, Hr.
    apply Z.eqb_eq in Hs. rewrite Hs, Hu. reflexivity.
Qed.

(** The service out of reach, and a 201 reply with an empty object, by X20. *)
Lemma X20_unreachable_and_bodyless :
  run unreachable
  = ((opening ++ [Call (auth_request "hunter2");
                  Print "Error during authentication: Connection refused";
                  Print failed_to_authenticate])%list, Ok 1) /\
  run bodyless
  = ((opening ++ [Call (auth_request "hunter2");
                  Print "Error during authentication: 'token'";
                  Print failed_to_authenticate])%list, Ok 1).
Proof.
  split.
  - apply (proj1 (X20_authentication_exception_is_reported unreachable)). reflexivity.
  - apply (proj2 (X20_authentication_exception_is_reported bodyless)
             bodyless_response (KeyError (JStr "token"))); reflexivity.
Defined.

(** X21.  A 201 reply with a readable body but no [X-Subject-Token]
    header, an empty one, or a subject id that counts as false (null,
    the empty string, zero) is an authentication failure: [main] prints
    [Failed to authenticate. Please check your password.] and nothing
    else about it, returns 1 and makes no other request. *)
Theorem X21_unusable_token_or_id (w : world) (r : response) (uid : json) :
  auth_reply w = Reply r ->
  status_code r = 201 ->
  user_id_of r = Ok uid ->
  subject_token r = None \/ subject_token r = Some "" \/ truthy uid = false ->
  run w = ((opening ++ [Call (auth_request (password w));
                        Print failed_to_authenticate])%list, Ok 1).
Proof.
  intros Hr Hs Hu Hbad. rewrite main_eq, get_keystone_token_eq, Hr.
  apply Z.eqb_eq in Hs. rewrite Hs, Hu. cbn [fst snd].
  replace (orb (negb (truthy (of_option (subject_token r)))) (negb (truthy uid)))
    with true; [reflexivity|].
  destruct Hbad as [-> | [-> | ->]]; cbn; [reflexivity | reflexivity |].
  now rewrite orb_true_r.
Qed.

(** A 201 reply without the header, by X21. *)
Lemma X21_headerless :
  run headerless
  = ((opening ++ [Call (auth_request "hunter2"); Print failed_to_authenticate])%list, Ok 1).
Proof.
  apply (X21_unusable_token_or_id headerless headerless_response (JStr "u1"));
    try reflexivity.
  now left.
Defined.

(** *** The process and its side effect *)

(** X22.  The status of the process is 0 or 1 for every run, also for
    one that ends by an exception; it is 0 exactly when [main] returns
    0. *)
Theorem X22_process_status (w : world) :
  (exit_status (snd (run w)) = 0 \/ exit_status (snd (run w)) = 1) /\
  (exit_status (snd (run w)) = 0 <-> snd (run w) = Ok 0).
Proof.
  destruct (run_cases w)
    as [(r & _ & _ & ->)|[(shown & -> & _)|(t & uid & rest & out & _ & _ & _ & -> & _ & _ & H)]];
    cbn [fst snd exit_status].
  - split; [now right | split; discriminate].
  - split; [now right | split; discriminate].
  - destruct out as [code|e]; cbn [exit_status].
    + destruct H as [[-> _]|[-> _]].
      * split; [now right | split; discriminate].
      * split; [now left | split; reflexivity].
    + split; [now right | split; discriminate].
Qed.

Lemma offer_existing_none (w : world) (existing : json) :
  snd (offer_existing w existing) = Ok None ->
  truthy existing = false \/ affirmative (answer w) = true.
Proof.
  unfold offer_existing, affirmative.
  destruct (truthy existing) eqn:Ht; [|now left].
  destruct (len existing) as [n|e]; [|discriminate].
  rewrite bind_lift_ok, bind_print.
  destruct (iter existing) as [creds|e]; [|discriminate].
  rewrite bind_lift_ok.
  destruct (for_each creds _) as [tf [[]|e]]; [|discriminate].
  rewrite bind_done, bind_print, bind_input. cbn [fst snd].
  destruct (String.eqb (strip (lower (answer w))) "y"); [now right|].
  cbn [negb]. rewrite bind_print. cbn [snd].
  destruct (first existing) as [cred|e]; [|discriminate].
  rewrite bind_lift_ok.
  destruct (get cred "access") as [a|e]; [|discriminate].
  rewrite bind_lift_ok, bind_print. cbn [snd].
  destruct (get cred "secret") as [s|e]; [|discriminate].
  rewrite bind_lift_ok, !bind_print. cbn [snd]. discriminate.
Qed.

(** X23.  A credential is created only if nothing that counts as true
    was listed or the operator said yes: in every run that makes the
    creation request, the authentication succeeded and the listing for
    that token and id returned a value that counts as false, or the
    reply to the question was the explicit yes. *)
Theorem X23_creation_only_when_wanted (w : world) :
  creation_attempted w ->
  exists t uid existing,
    authenticated w t uid /\
    snd (list_ec2_credentials w (JStr t) uid) = Ok existing /\
    (truthy existing = false \/ affirmative (answer w) = true).
Proof.
  intros (token & user_id & Hin).
  assert (Hnot : forall l, In (create_request token user_id) l ->
                           (l = [auth_request (password w)] \/
                            exists tk u, l = [auth_request (password w); list_request tk u]) ->
                           False).
  { intros l H [-> | (tk & u & ->)].
    - destruct H as [E|[]]. symmetry in E. now apply auth_request_not_create in E.
    - destruct H as [E|[E|[]]]; symmetry in E.
      + now apply auth_request_not_create in E.
      + now apply list_request_not_create in E. }
  destruct (authentication_cases w) as [(r & Hr & Hs)|[[H201 Hno]|(t & uid & Ha & Hne & Hu)]].
  - rewrite (run_rejected w r Hr Hs) in Hin. cbn [fst] in Hin.
    rewrite calls_app in Hin. exfalso. apply (Hnot _ Hin). now left.
  - destruct (run_not_authenticated w H201 Hno) as (shown & Hrun & Hc).
    rewrite Hrun in Hin. cbn [fst] in Hin.
    rewrite calls_app in Hin. cbn [calls opening app] in Hin.
    rewrite calls_app, Hc in Hin. exfalso. apply (Hnot _ Hin). now left.
  - exists t, uid.
    destruct (list_ec2_credentials_returns w (JStr t) uid) as [existing Hl].
    exists existing. split; [exact Ha | split; [exact Hl|]].
    destruct (snd (offer_existing w existing)) as [[code|]|e] eqn:Ho.
    3:{ exfalso. rewrite (run_authenticated w t uid Ha Hne Hu) in Hin.
        rewrite after_authentication_eq in Hin. cbv zeta in Hin.
        rewrite Hl, Ho in Hin. cbn [fst] in Hin.
        rewrite calls_app in Hin. cbn [calls opening app] in Hin.
        rewrite !calls_app, list_ec2_credentials_calls, offer_existing_calls in Hin.
        apply (Hnot _ Hin). right. now exists (JStr t), uid. }
    2:{ now apply offer_existing_none. }
    exfalso. rewrite (run_authenticated w t uid Ha Hne Hu) in Hin.
    rewrite after_authentication_eq in Hin. cbv zeta in Hin.
    rewrite Hl, Ho in Hin. cbn [fst] in Hin.
    rewrite calls_app in Hin. cbn [calls opening app] in Hin.
    rewrite !calls_app, list_ec2_credentials_calls, offer_existing_calls in Hin.
    apply (Hnot _ Hin). right. now exists (JStr t), uid.
Qed.

(** Scenario C, by X23. *)
Lemma X23_scenario_C_creation :
  exists t uid existing,
    authenticated scenario_C t uid /\
    snd (list_ec2_credentials scenario_C (JStr t) uid) = Ok existing /\
    (truthy existing = false \/ affirmative (answer scenario_C) = true).
Proof.
  apply (X23_creation_only_when_wanted scenario_C).
  exists (JStr "gAAAAABtoken"), (JStr "u1"). vm_compute. tauto.
Defined.

End Props.
